(** * ShopSurfer: the shopping-assistant pipeline of [shopsurfer_agent_ui.py]

    A shallow embedding of the request handler [search_products], of the
    credential check [validate_api_keys] and of the [ShoppingCrew] class
    (agents, tasks, run), followed by the properties of the specification
    that concern them.

    Python values are modelled as follows:
    - [str] is a sequence of Unicode code points, [list N];
    - [os.environ] is a finite map from variable names to [str] values;
      an assignment [os.environ[k] = v] updates the map, or raises when
      the operating system refuses the value (an embedded NUL, a
      surrogate that cannot be encoded);
    - a raised exception is a value carrying its class membership in
      [Exception] and the text [str(e)];
    - the hosted language model, the search and scrape services and the
      tool constructors are external: they are the fields of the class
      [Externals], and act on an explicit [World];
    - the sequential executor of the orchestration framework, which the
      repository calls and does not contain, follows the specification. *)

From Stdlib Require Import NArith Ascii String List Bool Lia.
From stdpp Require Import base option list strings gmap.

Local Open Scope N_scope.
Local Open Scope list_scope.

(** ** Python strings *)

Module PyStr.

(** A [str] value: its code points, in order. *)
Definition pystr : Type := list N.

(** A string literal of the source (the sources are plain ASCII). *)
Definition lit (s : string) : pystr :=
  List.map N_of_ascii (list_ascii_of_string s).

(** [ch.isspace()], the test behind [str.strip()] called with no
    argument: the code points Python classes as whitespace. *)
Definition isspace (c : N) : bool :=
  ((0x09 <=? c) && (c <=? 0x0D))
  || ((0x1C <=? c) && (c <=? 0x20))
  || (c =? 0x85) || (c =? 0xA0) || (c =? 0x1680)
  || ((0x2000 <=? c) && (c <=? 0x200A))
  || (c =? 0x2028) || (c =? 0x2029) || (c =? 0x202F)
  || (c =? 0x205F) || (c =? 0x3000).

(** [s.lstrip()]: drop the leading whitespace. *)
Fixpoint lstrip (s : pystr) : pystr :=
  match s with
  | [] => []
  | c :: rest => if isspace c then lstrip rest else s
  end.

(** [s.rstrip()]: drop the trailing whitespace. *)
Definition rstrip (s : pystr) : pystr := rev (lstrip (rev s)).

(** [s.strip()]. *)
Definition strip (s : pystr) : pystr := rstrip (lstrip s).

(** Truth value of a [str]: the empty string is false. *)
Definition truthy (s : pystr) : bool :=
  match s with [] => false | _ :: _ => true end.

(** Empty or made of whitespace only. *)
Definition blank (s : pystr) : bool := forallb isspace s.

(** Holds a character that is not whitespace. *)
Definition has_nonspace (s : pystr) : bool :=
  existsb (fun c => negb (isspace c)) s.

End PyStr.
Export PyStr.

(** ** The data model of the orchestration framework

    [Agent], [Task] and [Crew] are the records the source fills in; the
    three tool adapters are told apart by their class. *)

Inductive Tool : Type :=
| SerperDevTool
| WebsiteSearchTool
| ScrapeWebsiteTool.

Definition Tool_eqb (a b : Tool) : bool :=
  match a, b with
  | SerperDevTool, SerperDevTool => true
  | WebsiteSearchTool, WebsiteSearchTool => true
  | ScrapeWebsiteTool, ScrapeWebsiteTool => true
  | _, _ => false
  end.

Record Agent : Type := mkAgent {
  role : pystr;
  goal : pystr;
  backstory : pystr;
  tools : list Tool;     (* left out by the caller: the empty list *)
  verbose : bool
}.

#[warnings="-register-all"]
Inductive Task : Type := mkTask {
  description : pystr;
  agent : Agent;
  context : list Task;   (* left out by the caller: no task *)
  expected_output : pystr
}.

Inductive Process : Type :=
| sequential
| hierarchical.

Record Crew : Type := mkCrew {
  agents : list Agent;
  tasks : list Task;
  crew_verbose : bool;
  process : Process
}.

(** The tool set an agent is permitted to use (the membership test on
    its [tools]). *)
Definition permitted (a : Agent) (t : Tool) : bool :=
  existsb (Tool_eqb t) (tools a).

(** Equality of the records, field by field. *)
Fixpoint pystr_eqb (s t : pystr) : bool :=
  match s, t with
  | [], [] => true
  | a :: s', b :: t' => (a =? b) && pystr_eqb s' t'
  | _, _ => false
  end.

Definition tools_eqb (l1 l2 : list Tool) : bool :=
  (length l1 =? length l2)%nat
  && forallb (fun p => Tool_eqb (fst p) (snd p)) (combine l1 l2).

Definition Agent_eqb (a b : Agent) : bool :=
  pystr_eqb (role a) (role b) && pystr_eqb (goal a) (goal b)
  && pystr_eqb (backstory a) (backstory b)
  && tools_eqb (tools a) (tools b) && Bool.eqb (verbose a) (verbose b).

Fixpoint Task_eqb (a b : Task) {struct a} : bool :=
  match a, b with
  | mkTask d1 a1 c1 e1, mkTask d2 a2 c2 e2 =>
      pystr_eqb d1 d2 && Agent_eqb a1 a2
      && (fix all2 (l1 l2 : list Task) {struct l1} : bool :=
            match l1, l2 with
            | [], [] => true
            | x :: xs, y :: ys => Task_eqb x y && all2 xs ys
            | _, _ => false
            end) c1 c2
      && pystr_eqb e1 e2
  end.

(** ** Exceptions, outcomes and the external world *)

(** A raised exception: whether its class derives from [Exception]
    (it does not for [KeyboardInterrupt], [SystemExit], [GeneratorExit])
    and the text [str(e)]. *)
Record PyExc : Type := mkExc {
  derives_Exception : bool;
  exc_str : pystr
}.

Inductive outcome (A : Type) : Type :=
| Return (a : A)
| Raise (e : PyExc).
Arguments Return {A} a.
Arguments Raise {A} e.

(** What an observer of the process sees of the pipeline: the calls that
    leave the program. *)
Inductive Event : Type :=
| ToolInit (t : Tool)                   (* a tool adapter is instantiated *)
| Started (t : Task) (prompt : pystr)   (* a stage begins with this prompt *)
| Finished (t : Task) (output : pystr). (* the stage returned this text *)

(** The collaborators outside the repository. Each reads the process
    environment and changes only the world it lives in. *)
Class Externals : Type := {
  World : Type;
  (* the constructor of a tool adapter *)
  tool_init : Tool -> gmap string pystr -> World -> outcome unit * World;
  (* an agent working on a task with a prompt: the language model and
     the tool calls it makes *)
  execute_task : Task -> pystr -> gmap string pystr -> World
                 -> outcome pystr * World;
  (* the executor of the other process kind, which the source never
     selects *)
  hierarchical_kickoff : Crew -> gmap string pystr -> World
                         -> outcome pystr * World
}.

Record State `{Externals} : Type := mkState {
  environ : gmap string pystr;   (* os.environ *)
  world : World;
  trace : list Event
}.

(** ** The process environment

    [os.environ[k] = v] first encodes [v] for the operating system, with
    the file system encoding and the [surrogateescape] handler, then
    hands the bytes to [putenv], and only then records the value. The
    model is CPython on a POSIX system whose file system encoding is
    UTF-8: the encoding raises [UnicodeEncodeError] on a surrogate code
    point that does not stand for an escaped byte, and [putenv] raises
    [ValueError] on an embedded NUL. Both classes derive from
    [Exception]. *)

Definition is_surrogate (c : N) : bool := (0xD800 <=? c) && (c <=? 0xDFFF).

(** The surrogates [surrogateescape] turns back into the bytes 0x80 to
    0xFF. *)
Definition escaped_byte (c : N) : bool := (0xDC80 <=? c) && (c <=? 0xDCFF).

(** The number of surrogates [s] begins with. *)
Fixpoint surrogate_run (s : pystr) : N :=
  match s with
  | c :: rest => if is_surrogate c then 1 + surrogate_run rest else 0
  | [] => 0
  end.

(** The range [start, stop) the encoder reports: from the first
    surrogate it cannot escape, at or after position [i], to the end of
    the run of surrogates that holds it. *)
Fixpoint unencodable (i : N) (s : pystr) : option (N * N) :=
  match s with
  | [] => None
  | c :: rest =>
      if is_surrogate c && negb (escaped_byte c)
      then Some (i, i + 1 + surrogate_run rest)
      else unencodable (i + 1) rest
  end.

(** [str(n)] for a position, and the four hexadecimal digits of [%04x]. *)
Fixpoint uint_digits (u : Decimal.uint) : pystr :=
  match u with
  | Decimal.Nil => []
  | Decimal.D0 u => 48 :: uint_digits u
  | Decimal.D1 u => 49 :: uint_digits u
  | Decimal.D2 u => 50 :: uint_digits u
  | Decimal.D3 u => 51 :: uint_digits u
  | Decimal.D4 u => 52 :: uint_digits u
  | Decimal.D5 u => 53 :: uint_digits u
  | Decimal.D6 u => 54 :: uint_digits u
  | Decimal.D7 u => 55 :: uint_digits u
  | Decimal.D8 u => 56 :: uint_digits u
  | Decimal.D9 u => 57 :: uint_digits u
  end.

Definition decimal (n : N) : pystr := uint_digits (N.to_uint n).

Definition hex_digit (d : N) : N := if d <? 10 then 48 + d else 87 + d.

Definition hex4 (c : N) : pystr :=
  [hex_digit ((c / 4096) mod 16); hex_digit ((c / 256) mod 16);
   hex_digit ((c / 16) mod 16); hex_digit (c mod 16)].

(** [str(e)] of the [UnicodeEncodeError] for the range [start, stop). *)
Definition UnicodeEncodeError_str (s : pystr) (start stop : N) : pystr :=
  if stop =? start + 1
  then lit "'utf-8' codec can't encode character '\u"
       ++ hex4 (nth (N.to_nat start) s 0)
       ++ lit "' in position " ++ decimal start
       ++ lit ": surrogates not allowed"
  else lit "'utf-8' codec can't encode characters in position "
       ++ decimal start ++ lit "-" ++ decimal (stop - 1)
       ++ lit ": surrogates not allowed".

(** The exception the assignment of [v] raises, if any. *)
Definition environ_refuses (v : pystr) : option PyExc :=
  match unencodable 0 v with
  | Some (start, stop) =>
      Some {| derives_Exception := true;
              exc_str := UnicodeEncodeError_str v start stop |}
  | None =>
      if existsb (N.eqb 0) v
      then Some {| derives_Exception := true;
                   exc_str := lit "embedded null byte" |}
      else None
  end.

(** ** Computations: state passing with exceptions *)

Definition M `{Externals} (A : Type) : Type := State -> outcome A * State.

Definition ret `{Externals} {A : Type} (a : A) : M A :=
  fun s => (Return a, s).

Definition bind `{Externals} {A B : Type} (m : M A) (k : A -> M B) : M B :=
  fun s =>
    match m s with
    | (Return a, s') => k a s'
    | (Raise e, s') => (Raise e, s')
    end.

Declare Scope py_scope.
Delimit Scope py_scope with py.
Notation "'let*' x ':=' m 'in' k" := (bind m (fun x => k))
  (at level 10, x name, m at level 100, k at level 200) : py_scope.
Local Open Scope py_scope.

(** [os.environ[k] = v]: the value is recorded when the operating
    system takes it; otherwise the assignment raises and the environment
    is as it was. *)
Definition setenv `{Externals} (k : string) (v : pystr) : M unit :=
  fun s =>
    match environ_refuses v with
    | Some e => (Raise e, s)
    | None =>
        (Return tt,
         {| environ := <[k := v]> (environ s);
            world := world s; trace := trace s |})
    end.

Definition emit `{Externals} (e : Event) : M unit :=
  fun s => (Return tt,
            {| environ := environ s; world := world s;
               trace := trace s ++ [e] |}).

(** A call that leaves the program. *)
Definition external `{Externals} {A : Type}
    (f : gmap string pystr -> World -> outcome A * World) : M A :=
  fun s =>
    let (r, w) := f (environ s) (world s) in
    (r, {| environ := environ s; world := w; trace := trace s |}).

(** [try: body  except Exception as e: handler e]: only the exceptions
    whose class derives from [Exception] reach the handler. *)
Definition try_except_Exception `{Externals} {A : Type}
    (body : M A) (handler : PyExc -> M A) : M A :=
  fun s =>
    match body s with
    | (Return a, s') => (Return a, s')
    | (Raise e, s') =>
        if derives_Exception e then handler e s' else (Raise e, s')
    end.

(** ** The source: the [ShoppingCrew] class *)

(** The object: the three tool adapters [__init__] stores in it. *)
Record ShoppingCrew : Type := mkShoppingCrew {
  search_tool : Tool;
  website_search_tool : Tool;
  scrape_tool : Tool
}.

(** [ShoppingCrew.create_agents]. *)
Definition create_agents (self : ShoppingCrew) : Agent * Agent * Agent * Agent :=
  let verification_agent :=
    {| role := lit "Product Specification Verifier";
       goal := lit "Verify exact product details and model information";
       backstory := lit "You are a technical specialist who verifies product specifications, 
            model numbers, and ensures accuracy of product information. You have extensive 
            experience in consumer electronics and can spot incorrect or outdated information.";
       tools := [search_tool self; website_search_tool self];
       verbose := true |} in
  let research_agent :=
    {| role := lit "Product Research Specialist";
       goal := lit "Conduct comprehensive product research including customer reviews and availability";
       backstory := lit "You are an expert product researcher who specializes in 
            detailed product analysis. You focus on gathering authentic customer reviews,
            checking real-time stock availability, and verifying warranty information.
            You know how to distinguish genuine reviews from fake ones and can provide
            balanced perspectives from actual users.";
       tools := [search_tool self; website_search_tool self; scrape_tool self];
       verbose := true |} in
  let deal_finder_agent :=
    {| role := lit "Deals Analysis Expert";
       goal := lit "Find and verify current deals with specific dates and conditions";
       backstory := lit "You are a professional deal finder who specializes in 
            tracking promotion dates and conditions. You verify the legitimacy of deals,
            understand complex terms and conditions, and can find hidden savings
            opportunities. You're expert at comparing warranty options and total ownership costs.";
       tools := [search_tool self; website_search_tool self; scrape_tool self];
       verbose := true |} in
  let report_agent :=
    {| role := lit "Shopping Report Specialist";
       goal := lit "Create detailed, accurate shopping reports with specific links and availability info";
       backstory := lit "You are an experienced shopping analyst who creates 
            comprehensive reports. You ensure all information is current and accurate,
            include specific product links, and provide detailed availability information.
            You excel at presenting complex information in an easy-to-understand format
            while maintaining technical accuracy.";
       tools := [];
       verbose := true |} in
  (verification_agent, research_agent, deal_finder_agent, report_agent).

(** [ShoppingCrew.create_tasks]; an f-string is the concatenation of its
    literal parts and of the value interpolated between them. *)
Definition create_tasks (query : pystr)
    (verification_agent research_agent deal_finder_agent report_agent : Agent)
    : list Task :=
  let verification_task :=
    {| description := lit "Verify exact product specifications for: " ++ query ++ lit "
            
            Required Steps:
            1. Confirm exact model number and name
            2. Verify all technical specifications
            3. Check for any recent product updates or revisions
            4. Confirm product variants and options
            5. Validate compatibility information
            
            Return:
            - Exact model numbers and names
            - Confirmed specifications
            - Any discrepancies found
            - Latest product updates";
       agent := verification_agent;
       context := [];
       expected_output := lit "Detailed product verification findings" |} in
  let research_task :=
    {| description := lit "Research this product in detail: " ++ query ++ lit "
            
            Required Steps:
            1. Search for the product across major retailers
            2. Collect and analyze customer reviews (minimum 10)
            3. Check current stock availability
            4. Verify warranty options and terms
            5. Analyze return policies
            6. Compare technical specifications
            
            Return findings including:
            - Verified retailer list with exact product page URLs
            - Detailed warranty information
            - Stock availability status
            - Curated customer reviews (positive and negative)
            - Technical specifications comparison
            - Return policy details";
       agent := research_agent;
       context := [verification_task];
       expected_output := lit "Detailed product research findings which should 
             Verified retailer list with exact product page URLs
             Detailed warranty information
             Stock availability status
             Curated customer reviews (positive and negative)
             Technical specifications comparison
             Return policy details
            " |} in
  let deal_finding_task :=
    {| description := lit "Using the research findings, analyze current deals:
            
            Required Steps:
            1. Verify current prices and promotions
            2. Document specific promotion dates
            3. Detail all terms and conditions
            4. Compare warranty options
            5. Check stock availability for deals
            6. Verify shipping timeframes
            
            Provide for each retailer:
            - Current price with promotion dates
            - Detailed terms and conditions
            - Warranty options and costs
            - Stock availability status
            - Shipping/pickup options and timeframes
            - Total cost breakdown including all fees";
       agent := deal_finder_agent;
       context := [verification_task; research_task];
       expected_output := lit "Detailed deals analysis which should include:
            Current price with promotion dates
            Detailed terms and conditions
            Warranty options and costs
            Stock availability status
            Shipping/pickup options and timeframes
            Total cost breakdown including all fees
            " |} in
  let report_task :=
    {| description := lit "Create a comprehensive shopping report including:
            
            1. Executive Summary
               - Top recommendation with reasoning
               - Price range overview with specific dates
               - Best current deal with terms
            
            2. Product Details
               - Verified model numbers and specifications
               - Detailed pros and cons
               - Curated customer reviews (minimum 5 positive and 5 negative)
               - Warranty options comparison
            
            3. Price and Availability Comparison
               - Retailer comparison table with exact URLs
               - Current stock availability
               - Promotion dates and terms
               - Complete cost breakdown
            
            4. Buying Guide
               - Best retailer choice with reasoning
               - Stock availability alerts
               - Direct product page links
               - Warranty recommendations
            
            Format the report clearly with sections and bullet points.
            Include specific dates, model numbers, and direct links.";
       agent := report_agent;
       context := [verification_task; research_task; deal_finding_task];
       expected_output := lit "Final shopping report which includes clearly with sections and bullet points.
            Include specific dates, model numbers, and direct links" |} in
  [verification_task; research_task; deal_finding_task; report_task].

(** [validate_api_keys]: [None] when both keys pass. *)
Definition validate_api_keys (openai_key serper_key : pystr) : option pystr :=
  if negb (truthy (strip openai_key)) || negb (truthy (strip serper_key))
  then Some (lit "Please enter both API keys")
  else None.

Section Program.
Context `{Externals}.

(** Instantiating a tool adapter: [SerperDevTool()] and the like. *)
Definition new_tool (t : Tool) : M Tool :=
  let* _ := emit (ToolInit t) in
  let* _ := external (tool_init t) in
  ret t.

(** [ShoppingCrew.__init__]. *)
Definition ShoppingCrew_init : M ShoppingCrew :=
  let* search := new_tool SerperDevTool in
  let* website := new_tool WebsiteSearchTool in
  let* scrape := new_tool ScrapeWebsiteTool in
  ret {| search_tool := search;
         website_search_tool := website;
         scrape_tool := scrape |}.

(** *** The sequential executor

    [Crew.kickoff] belongs to the orchestration framework, which the
    repository calls and does not contain. *)

(** Modelled from the spec: the store of the framework's executor, where
    a stage finds "the textual outputs of all tasks listed in its
    context" (section 3). The outputs are kept with the task they belong
    to; a task that has not run contributes no text. *)
Definition output_of (done : list (Task * pystr)) (t : Task) : pystr :=
  match find (fun p => Task_eqb (fst p) t) done with
  | Some p => snd p
  | None => []
  end.

(** Modelled from the spec: the prompt the framework's executor gives a
    stage, "a concatenation of its description and the textual outputs
    of all tasks listed in its context" (section 3). *)
Definition effective_prompt (done : list (Task * pystr)) (t : Task)
    : pystr :=
  description t ++ concat (List.map (output_of done) (context t)).

(** Modelled from the spec: the loop of the framework's sequential
    executor (section 4.3). The tasks run strictly in the order of the
    list; a stage invokes the agent bound to the task with the
    concatenated prompt, stores the raw text and advances; an exception
    raised during a stage aborts the run, with no retry. *)
Fixpoint run_stages (ts : list Task) (done : list (Task * pystr))
    : M (list (Task * pystr)) :=
  match ts with
  | [] => ret done
  | t :: rest =>
      let prompt := effective_prompt done t in
      let* _ := emit (Started t prompt) in
      let* output := external (execute_task t prompt) in
      let* _ := emit (Finished t output) in
      run_stages rest (done ++ [(t, output)])
  end.

(** Modelled from the spec: the result of the framework's executor, "one
    final string (the last task's output)" (section 3). *)
Definition final_output (done : list (Task * pystr)) : pystr :=
  match rev done with
  | [] => []
  | p :: _ => snd p
  end.

(** Modelled from the spec: [Crew.kickoff] of the framework. The
    specification describes the sequential process only; the other
    process kind is left to the collaborators. *)
Definition kickoff (crew : Crew) : M pystr :=
  match process crew with
  | sequential =>
      let* done := run_stages (tasks crew) [] in
      ret (final_output done)
  | hierarchical => external (hierarchical_kickoff crew)
  end.

(** *** [ShoppingCrew.run] *)
Definition run (self : ShoppingCrew) (query : pystr) : M pystr :=
  let '(verification_agent, research_agent,
        deal_finder_agent, report_agent) := create_agents self in
  let tasks := create_tasks query verification_agent research_agent
                 deal_finder_agent report_agent in
  let crew :=
    {| agents := [verification_agent; research_agent;
                  deal_finder_agent; report_agent];
       tasks := tasks;
       crew_verbose := true;
       process := sequential |} in
  let* result := kickoff crew in
  ret result.

(** *** [search_products] *)
Definition search_products (openai_key serper_key query : pystr)
    : M pystr :=
  let validation_error := validate_api_keys openai_key serper_key in
  let proceed :=
    let* _ := setenv "OPENAI_API_KEY" openai_key in
    let* _ := setenv "SERPER_API_KEY" serper_key in
    try_except_Exception
      (let* shopping_crew := ShoppingCrew_init in
       let* result := run shopping_crew query in
       ret result)
      (fun e => ret (lit "An error occurred: " ++ exc_str e)) in
  match validation_error with
  | Some message => if truthy message then ret message else proceed
  | None => proceed
  end.

End Program.

(** ** Reading a trace, and the vocabulary of the properties *)

(** The tasks whose stage began, in order. *)
Definition started_tasks (evs : list Event) : list Task :=
  omap (fun e => match e with Started t _ => Some t | _ => None end) evs.

(** The tasks whose stage returned, in order, and the texts returned. *)
Definition finished_tasks (evs : list Event) : list Task :=
  omap (fun e => match e with Finished t _ => Some t | _ => None end) evs.

Definition outputs (evs : list Event) : list pystr :=
  omap (fun e => match e with Finished _ o => Some o | _ => None end) evs.

(** The events of a sequential run over [ts] in which the stages return
    [outs] one after the other, [prev] being the outputs of the stages
    before [ts]: every prompt is the description followed by all the
    outputs so far. When [outs] is shorter than [ts], the stage after the
    last output began and did not return. *)
Fixpoint stage_events (ts : list Task) (prev outs : list pystr)
    : list Event :=
  match ts with
  | [] => []
  | t :: ts' =>
      Started t (description t ++ concat prev) ::
      match outs with
      | [] => []
      | o :: outs' => Finished t o :: stage_events ts' (prev ++ [o]) outs'
      end
  end.

(** Context chaining: the context of the task at position [n] is the
    list of the tasks before it. *)
Definition chained (ts : list Task) : Prop :=
  forall (n : nat) (t : Task), ts !! n = Some t -> context t = take n ts.

(** The tasks of a list are told apart by [Task_eqb], so that looking an
    output up by task is looking it up by object. *)
Definition distinct (ts : list Task) : Prop :=
  forall (i j : nat) (ti tj : Task),
    ts !! i = Some ti -> ts !! j = Some tj -> i <> j ->
    Task_eqb ti tj = false.

(** The tasks [run] hands to the executor. *)
Definition crew_tasks (self : ShoppingCrew) (query : pystr) : list Task :=
  let '(verification_agent, research_agent,
        deal_finder_agent, report_agent) := create_agents self in
  create_tasks query verification_agent research_agent
    deal_finder_agent report_agent.

(** The object [__init__] builds when no constructor raises. *)
Definition the_crew : ShoppingCrew :=
  {| search_tool := SerperDevTool;
     website_search_tool := WebsiteSearchTool;
     scrape_tool := ScrapeWebsiteTool |}.

(** The description of the task at position [n], and what it means for
    it not to embed the query: it is the same text for every query. *)
Definition task_description (n : nat) (query : pystr)
    (va ra da pa : Agent) : option pystr :=
  description <$> (create_tasks query va ra da pa !! n).

Definition query_free (n : nat) : Prop :=
  forall (query query' : pystr) (va ra da pa : Agent),
    task_description n query va ra da pa
    = task_description n query' va ra da pa.

(** The crew [run] builds. *)
Definition crew_of (self : ShoppingCrew) (query : pystr) : Crew :=
  let '(verification_agent, research_agent,
        deal_finder_agent, report_agent) := create_agents self in
  {| agents := [verification_agent; research_agent;
                deal_finder_agent; report_agent];
     tasks := create_tasks query verification_agent research_agent
                deal_finder_agent report_agent;
     crew_verbose := true;
     process := sequential |}.

(** The events of [__init__] when no constructor raises. *)
Definition tool_events : list Event :=
  [ToolInit SerperDevTool; ToolInit WebsiteSearchTool;
   ToolInit ScrapeWebsiteTool].

(** The ways the [try] block can go, with the events of each: a tool
    constructor raises; a stage raises after the stages before it
    returned [outs]; the four stages return [outs]. *)
Inductive pipeline_run (query : pystr)
    : outcome pystr -> list Event -> Prop :=
| construction_failed (n : nat) (e : PyExc) :
    (1 <= n <= 3)%nat ->
    pipeline_run query (Raise e) (take n tool_events)
| stage_failed (outs : list pystr) (e : PyExc) :
    (length outs < 4)%nat ->
    pipeline_run query (Raise e)
      (tool_events ++ stage_events (crew_tasks the_crew query) [] outs)
| completed (outs : list pystr) (result : pystr) :
    length outs = 4%nat -> last outs = Some result ->
    pipeline_run query (Return result)
      (tool_events ++ stage_events (crew_tasks the_crew query) [] outs).

Section Vocabulary.
Context `{Externals}.

(** The statements of the [try] block of [search_products]. *)
Definition try_block (query : pystr) : M pystr :=
  let* shopping_crew := ShoppingCrew_init in
  let* result := run shopping_crew query in
  ret result.

(** The state after the two assignments to [os.environ]. *)
Definition with_keys (openai_key serper_key : pystr) (s : State) : State :=
  {| environ := <["SERPER_API_KEY" := serper_key]>
                  (<["OPENAI_API_KEY" := openai_key]> (environ s));
     world := world s;
     trace := trace s |}.

(** What the [try] statement makes of the outcome of its block. *)
Definition reported (o : outcome pystr) : outcome pystr :=
  match o with
  | Return result => Return result
  | Raise e =>
      if derives_Exception e
      then Return (lit "An error occurred: " ++ exc_str e)
      else Raise e
  end.

(** The events a computation adds to the trace. *)
Definition adds {A : Type} (m : M A) (s : State) (evs : list Event) : Prop :=
  trace (snd (m s)) = trace s ++ evs.
End Vocabulary.

(** ** Concrete worlds, used to run the program on examples *)

(** Every collaborator answers: a stage returns the role of its agent
    between brackets; the world counts the stages served. *)
Definition echo_world : Externals := {|
  World := nat;
  tool_init := fun _ _ w => (Return tt, w);
  execute_task := fun t _ _ w =>
    (Return (lit "[" ++ role (agent t) ++ lit "]"), S w);
  hierarchical_kickoff := fun _ _ w => (Return [], w)
|}.

(** As [echo_world], but the stage served after [k] others raises [e]. *)
Definition failing_world (k : nat) (e : PyExc) : Externals := {|
  World := nat;
  tool_init := fun _ _ w => (Return tt, w);
  execute_task := fun t _ _ w =>
    if (w =? k)%nat then (Raise e, S w)
    else (Return (lit "[" ++ role (agent t) ++ lit "]"), S w);
  hierarchical_kickoff := fun _ _ w => (Return [], w)
|}.

(** As [echo_world], but the constructor of the tool [t] raises [e]. *)
Definition broken_tool_world (t : Tool) (e : PyExc) : Externals := {|
  World := nat;
  tool_init := fun t' _ w =>
    if Tool_eqb t' t then (Raise e, w) else (Return tt, w);
  execute_task := fun t _ _ w =>
    (Return (lit "[" ++ role (agent t) ++ lit "]"), S w);
  hierarchical_kickoff := fun _ _ w => (Return [], w)
|}.

(** A connectivity failure of a tool or of the network, and an
    interruption of the process: the latter is not an [Exception]. *)
Definition ConnectionError : PyExc :=
  {| derives_Exception := true; exc_str := lit "Connection refused" |}.

Definition KeyboardInterrupt : PyExc :=
  {| derives_Exception := false; exc_str := [] |}.

(** The tasks of a request for "monitor", the outputs of their stages
    in [echo_world], and the events of the run up to the report stage. *)
Definition monitor_task (n : nat) : Task :=
  nth n (crew_tasks the_crew (lit "monitor"))
    (mkTask [] (mkAgent [] [] [] [] true) [] []).

Definition echo_output (n : nat) : pystr :=
  lit "[" ++ role (agent (monitor_task n)) ++ lit "]".

Definition monitor_events_before_report : list Event :=
  [Started (monitor_task 0) (description (monitor_task 0));
   Finished (monitor_task 0) (echo_output 0);
   Started (monitor_task 1) (description (monitor_task 1) ++ echo_output 0);
   Finished (monitor_task 1) (echo_output 1);
   Started (monitor_task 2)
     (description (monitor_task 2) ++ echo_output 0 ++ echo_output 1);
   Finished (monitor_task 2) (echo_output 2)].

Definition initial_state (ext : Externals) (w : @World ext) : @State ext :=
  {| environ := ∅; world := w; trace := [] |}.

(** A state in which both variables hold the keys of an earlier request. *)
Definition earlier_keys (ext : Externals) (w : @World ext) : @State ext :=
  {| environ := <["SERPER_API_KEY" := lit "old-serper"]>
                  (<["OPENAI_API_KEY" := lit "old-openai"]> ∅);
     world := w; trace := [] |}.

(** ** Further vocabulary *)

(** Keys that pass validation and that the operating system refuses: one
    with an embedded NUL, one with a lone surrogate; and the exception
    of the first. *)
Definition NUL_key : pystr := lit "sk" ++ [0].

Definition surrogate_key : pystr := [0x61; 0xD800; 0x63].

Definition embedded_null_byte : PyExc :=
  {| derives_Exception := true; exc_str := lit "embedded null byte" |}.

Section Assignments.
Context `{Externals}.

(** The state after the first assignment to [os.environ] only. *)
Definition with_openai_key (openai_key : pystr) (s : State) : State :=
  {| environ := <["OPENAI_API_KEY" := openai_key]> (environ s);
     world := world s;
     trace := trace s |}.

(** An exception [e] is raised during the construction of the pipeline
    or during one of its stages, the [try] block being entered in the
    state [s0]: the constructor of a tool adapter raises it after the
    constructors before it returned, or the agent of a task raises it
    after the stages of the tasks before it returned. *)
Inductive raised_in_pipeline (query : pystr) (s0 : State) (e : PyExc)
    : Prop :=
| raised_by_search_tool (w : World) :
    tool_init SerperDevTool (environ s0) (world s0) = (Raise e, w) ->
    raised_in_pipeline query s0 e
| raised_by_website_search_tool (w1 w : World) :
    tool_init SerperDevTool (environ s0) (world s0) = (Return tt, w1) ->
    tool_init WebsiteSearchTool (environ s0) w1 = (Raise e, w) ->
    raised_in_pipeline query s0 e
| raised_by_scrape_tool (w1 w2 w : World) :
    tool_init SerperDevTool (environ s0) (world s0) = (Return tt, w1) ->
    tool_init WebsiteSearchTool (environ s0) w1 = (Return tt, w2) ->
    tool_init ScrapeWebsiteTool (environ s0) w2 = (Raise e, w) ->
    raised_in_pipeline query s0 e
| raised_by_stage (crew : ShoppingCrew) (s1 s2 : State)
      (before after : list Task) (t : Task)
      (done : list (Task * pystr)) (w : World) :
    ShoppingCrew_init s0 = (Return crew, s1) ->
    crew_tasks crew query = before ++ t :: after ->
    run_stages before [] s1 = (Return done, s2) ->
    execute_task t (effective_prompt done t) (environ s2) (world s2)
    = (Raise e, w) ->
    raised_in_pipeline query s0 e.
End Assignments.





(** A world in which every stage returns the text [out]. *)
Definition answering_world (out : pystr) : Externals := {|
  World := nat;
  tool_init := fun _ _ w => (Return tt, w);
  execute_task := fun _ _ _ w => (Return out, S w);
  hierarchical_kickoff := fun _ _ w => (Return [], w)
|}.

(** * Properties *)

(** ** Blank strings and [strip] *)

Lemma lstrip_nil_iff (s : pystr) : lstrip s = [] <-> blank s = true.
Proof.
  induction s as [|c s IH]; simpl.
  - tauto.
  - destruct (isspace c); simpl.
    + exact IH.
    + split; discriminate.
Qed.

Lemma blank_app (s t : pystr) : blank (s ++ t) = blank s && blank t.
Proof. unfold blank. apply forallb_app. Qed.

Lemma blank_rev (s : pystr) : blank (rev s) = blank s.
Proof.
  induction s as [|c s IH]; simpl; [reflexivity|].
  rewrite blank_app, IH. simpl. rewrite andb_true_r. apply andb_comm.
Qed.

Lemma lstrip_blank (s : pystr) : blank s = true -> lstrip s = [].
Proof. apply lstrip_nil_iff. Qed.

Lemma blank_lstrip (s : pystr) : blank (lstrip s) = blank s.
Proof.
  induction s as [|c s IH]; simpl; [reflexivity|].
  destruct (isspace c) eqn:E; simpl; [exact IH|].
  now rewrite E.
Qed.

(** [not s.strip()] is true exactly on the blank strings. *)
Lemma strip_nil_iff (s : pystr) : strip s = [] <-> blank s = true.
Proof.
  unfold strip, rstrip. split.
  - intros H. apply (f_equal (@rev N)) in H. rewrite rev_involutive in H.
    simpl in H. apply lstrip_nil_iff in H.
    rewrite blank_rev, blank_lstrip in H. exact H.
  - intros H. rewrite (lstrip_blank s H). reflexivity.
Qed.

Lemma truthy_strip (s : pystr) : truthy (strip s) = negb (blank s).
Proof.
  destruct (blank s) eqn:E.
  - apply strip_nil_iff in E. now rewrite E.
  - destruct (strip s) eqn:S; [|reflexivity].
    apply strip_nil_iff in S. congruence.
Qed.

Lemma has_nonspace_blank (s : pystr) : has_nonspace s = negb (blank s).
Proof.
  induction s as [|c s IH]; simpl; [reflexivity|].
  rewrite IH. now destruct (isspace c).
Qed.

(** ** Equality tests *)

Lemma pystr_eqb_refl (s : pystr) : pystr_eqb s s = true.
Proof.
  induction s as [|c s IH]; simpl; [reflexivity|].
  now rewrite N.eqb_refl, IH.
Qed.

Lemma Tool_eqb_refl (t : Tool) : Tool_eqb t t = true.
Proof. now destruct t. Qed.

Lemma tools_eqb_refl (l : list Tool) : tools_eqb l l = true.
Proof.
  unfold tools_eqb. rewrite Nat.eqb_refl. simpl.
  induction l as [|t l IH]; simpl; [reflexivity|].
  now rewrite Tool_eqb_refl, IH.
Qed.

Lemma Agent_eqb_refl (a : Agent) : Agent_eqb a a = true.
Proof.
  unfold Agent_eqb.
  now rewrite !pystr_eqb_refl, tools_eqb_refl, Bool.eqb_reflx.
Qed.

Lemma Task_eqb_refl : forall t : Task, Task_eqb t t = true.
Proof.
  fix self 1. intros [d a c e]. simpl.
  rewrite !pystr_eqb_refl, Agent_eqb_refl. simpl. rewrite andb_true_r.
  induction c as [|x xs IH]; simpl; [reflexivity|].
  now rewrite self, IH.
Qed.

(** ** The sequential executor *)

Section Executor.
Context `{Externals}.

(** The output stored for the task at position [i] is found under that
    task when no earlier task is taken for it. *)
Lemma output_of_combine (pre : list Task) :
  forall (outs : list pystr) (i : nat) (t : Task) (o : pystr),
    pre !! i = Some t -> outs !! i = Some o ->
    (forall j tj, (j < i)%nat -> pre !! j = Some tj -> Task_eqb tj t = false) ->
    output_of (combine pre outs) t = o.
Proof.
  unfold output_of.
  induction pre as [|x pre IH]; intros outs i t o Hp Ho Hlt.
  - destruct i; discriminate.
  - destruct outs as [|y outs]; [destruct i; discriminate|].
    destruct i as [|i]; simpl in *.
    + injection Hp as ->. injection Ho as ->.
      now rewrite Task_eqb_refl.
    + rewrite (Hlt 0%nat x) by (reflexivity || lia).
      apply (IH outs i); try assumption.
      intros j tj Hj Hpj. apply (Hlt (S j)); [lia | exact Hpj].
Qed.

Lemma distinct_app_l (pre rest : list Task) :
  distinct (pre ++ rest) -> distinct pre.
Proof.
  intros D i j ti tj Hi Hj. apply D; now apply lookup_app_l_Some.
Qed.

(** In a list of distinct tasks, the outputs stored for the tasks are
    read back in order. *)
Lemma outputs_of_prefix (pre : list Task) (outs : list pystr) :
  distinct pre -> length outs = length pre ->
  List.map (output_of (combine pre outs)) pre = outs.
Proof.
  intros D L. apply list_eq. intros i.
  rewrite list_lookup_fmap.
  destruct (pre !! i) as [t|] eqn:Hp; simpl.
  - destruct (outs !! i) as [o|] eqn:Ho.
    + f_equal. apply (output_of_combine pre outs i); try assumption.
      intros j tj Hj Hpj. apply (D j i); [assumption..|lia].
    + apply lookup_ge_None in Ho. apply lookup_lt_Some in Hp. lia.
  - symmetry. apply lookup_ge_None. apply lookup_ge_None in Hp. lia.
Qed.

(** The prompt of the task that follows [pre] in a chained list. *)
Lemma effective_prompt_chained (pre rest : list Task) (t : Task)
    (outs : list pystr) :
  chained (pre ++ t :: rest) -> distinct (pre ++ t :: rest) ->
  length outs = length pre ->
  effective_prompt (combine pre outs) t = description t ++ concat outs.
Proof.
  intros C D L. unfold effective_prompt.
  assert (Hc : context t = pre).
  { rewrite (C (length pre) t).
    - now rewrite take_app_length.
    - now rewrite list_lookup_middle. }
  rewrite Hc, outputs_of_prefix; [reflexivity | | assumption].
  now apply distinct_app_l in D.
Qed.
End Executor.

Lemma combine_snoc {A B : Type} (l : list A) :
  forall (k : list B) (a : A) (b : B),
    length k = length l ->
    combine l k ++ [(a, b)] = combine (l ++ [a]) (k ++ [b]).
Proof.
  induction l as [|x l IH]; intros [|y k] a b L; simpl in *;
    try discriminate; [reflexivity|].
  f_equal. apply IH. lia.
Qed.

Section Runs.
Context `{Externals}.

(** A run of the stages [rest] after the stages [pre] returned [outs]:
    the trace grows by the events of [stage_events], the environment is
    left alone, and the run either returns with one output per task or
    raises before the last task returned. *)
Lemma run_stages_spec (rest : list Task) :
  forall (pre : list Task) (outs : list pystr) (s : State),
    chained (pre ++ rest) -> distinct (pre ++ rest) ->
    length outs = length pre ->
    exists outs' : list pystr,
      trace (snd (run_stages rest (combine pre outs) s))
        = trace s ++ stage_events rest outs outs'
      /\ environ (snd (run_stages rest (combine pre outs) s)) = environ s
      /\ match fst (run_stages rest (combine pre outs) s) with
         | Return done =>
             done = combine (pre ++ rest) (outs ++ outs')
             /\ length outs' = length rest
         | Raise _ => (length outs' < length rest)%nat
         end.
Proof.
  induction rest as [|t rest IH]; intros pre outs s C D L.
  - exists []. simpl. rewrite !app_nil_r. auto.
  - pose proof (effective_prompt_chained pre rest t outs C D L) as P.
    cbn [run_stages]. rewrite P. unfold bind, emit, external. cbn.
    destruct (execute_task t (description t ++ concat outs)
                (environ s) (world s)) as [[o|e] w] eqn:E.
    + cbn [environ world trace].
      rewrite combine_snoc by exact L.
      match goal with
      | |- context [run_stages rest _ ?st] => set (s1 := st)
      end.
      destruct (IH (pre ++ [t]) (outs ++ [o]) s1) as (outs' & T & V & R).
      * now rewrite <- app_assoc.
      * now rewrite <- app_assoc.
      * rewrite !length_app, L. reflexivity.
      * exists (o :: outs'). rewrite T, V. subst s1. cbn.
        split; [now rewrite <- !app_assoc|]. split; [reflexivity|].
        destruct (fst (run_stages rest (combine (pre ++ [t]) (outs ++ [o])) _)).
        -- rewrite <- !app_assoc in R. cbn in R. destruct R as [-> R].
           split; [reflexivity | now rewrite R].
        -- lia.
    + exists []. cbn. split; [reflexivity|]. split; [reflexivity|]. lia.
Qed.
End Runs.

(** ** The tasks of the source *)

Lemma crew_tasks_length (self : ShoppingCrew) (query : pystr) :
  length (crew_tasks self query) = 4%nat.
Proof. reflexivity. Qed.

(** Each task of [create_tasks] has the tasks defined before it, all of
    them and in order, for context. *)
Lemma create_tasks_chained (query : pystr) (va ra da pa : Agent) :
  chained (create_tasks query va ra da pa).
Proof.
  intros n t Hn.
  destruct n as [|[|[|[|n]]]]; try discriminate;
    injection Hn as <-; reflexivity.
Qed.

(** The four descriptions begin with different words, whatever the
    query and the agents. *)
Lemma create_tasks_distinct (query : pystr) (va ra da pa : Agent) :
  distinct (create_tasks query va ra da pa).
Proof.
  intros i j ti tj Hi Hj Hne.
  destruct i as [|[|[|[|i]]]]; try discriminate;
    destruct j as [|[|[|[|j]]]]; try discriminate; try congruence;
    injection Hi as <-; injection Hj as <-; vm_compute; reflexivity.
Qed.

Lemma crew_tasks_chained (self : ShoppingCrew) (query : pystr) :
  chained (crew_tasks self query).
Proof. apply create_tasks_chained. Qed.

Lemma crew_tasks_distinct (self : ShoppingCrew) (query : pystr) :
  distinct (crew_tasks self query).
Proof. apply create_tasks_distinct. Qed.

(** ** Reading the events of a sequential run *)

Lemma started_stage_events (ts : list Task) :
  forall prev outs : list pystr,
    started_tasks (stage_events ts prev outs) = take (S (length outs)) ts.
Proof.
  induction ts as [|t ts IH]; intros prev outs; [reflexivity|].
  destruct outs as [|o outs]; cbn.
  - now rewrite take_0.
  - f_equal. apply IH.
Qed.

Lemma finished_stage_events (ts : list Task) :
  forall prev outs : list pystr,
    finished_tasks (stage_events ts prev outs) = take (length outs) ts.
Proof.
  induction ts as [|t ts IH]; intros prev outs.
  - now rewrite take_nil.
  - destruct outs as [|o outs]; cbn; [reflexivity|].
    f_equal. apply IH.
Qed.

(** Where a stage begins in such a run: the stages that returned before
    it are the tasks before it, and its prompt is its description
    followed by their outputs, in order. *)
Lemma stage_events_started (ts : list Task) :
  forall (prev outs : list pystr) (evs1 evs2 : list Event)
         (t : Task) (p : pystr),
    stage_events ts prev outs = evs1 ++ Started t p :: evs2 ->
    exists n : nat,
      ts !! n = Some t
      /\ finished_tasks evs1 = take n ts
      /\ p = description t ++ concat (prev ++ outputs evs1).
Proof.
  induction ts as [|t0 ts IH]; intros prev outs evs1 evs2 t p E.
  - destruct evs1; discriminate.
  - cbn [stage_events] in E. destruct evs1 as [|e1 evs1].
    + cbn in E. injection E as Ht Hp _. subst t p. exists 0%nat.
      cbn. now rewrite app_nil_r.
    + injection E as <- E.
      destruct outs as [|o outs]; [destruct evs1; discriminate|].
      destruct evs1 as [|e2 evs1]; [discriminate|].
      injection E as <- E.
      destruct (IH _ _ _ _ _ _ E) as (n & Hn & Hf & Hp).
      exists (S n). unfold finished_tasks, outputs in *. cbn. rewrite Hf.
      repeat split; [assumption|].
      now rewrite Hp, <- app_assoc.
Qed.

(** The last event of a run in which every stage returned. *)
Lemma stage_events_last (ts : list Task) :
  forall (prev outs : list pystr) (t : Task) (o : pystr),
    length outs = length ts ->
    last ts = Some t -> last outs = Some o ->
    last (stage_events ts prev outs) = Some (Finished t o).
Proof.
  induction ts as [|t0 ts IH]; intros prev outs t o L Ht Ho; [discriminate|].
  destruct outs as [|o0 outs]; [discriminate|].
  cbn [stage_events]. destruct ts as [|t1 ts].
  - destruct outs; [|discriminate].
    cbn in *. congruence.
  - destruct outs as [|o1 outs]; [discriminate|].
    change (last (Started t0 (description t0 ++ concat prev) :: Finished t0 o0
                  :: stage_events (t1 :: ts) (prev ++ [o0]) (o1 :: outs)))
      with (last (stage_events (t1 :: ts) (prev ++ [o0]) (o1 :: outs))).
    apply IH; [cbn in *; lia | exact Ht | exact Ho].
Qed.

Lemma final_output_combine (ts : list Task) (outs : list pystr) :
  length outs = length ts ->
  final_output (combine ts outs) = default [] (last outs).
Proof.
  revert outs. induction ts as [|t ts IH] using rev_ind; intros outs L.
  - destruct outs; [reflexivity | discriminate].
  - destruct outs as [|o outs _] using rev_ind.
    + rewrite length_app in L. cbn in L. lia.
    + rewrite !length_app in L. cbn in L.
      rewrite <- combine_snoc by lia.
      unfold final_output. rewrite rev_app_distr. cbn.
      now rewrite last_snoc.
Qed.

(** ** The pipeline: [__init__], [run] and the [try] block *)

Section Pipeline.
Context `{Externals}.

Lemma bind_ret {A : Type} (m : M A) (s : State) : bind m ret s = m s.
Proof. unfold bind, ret. now destruct (m s) as [[a|e] s']. Qed.

(** [run] builds the crew and returns what its executor returns. *)
Lemma run_kickoff (self : ShoppingCrew) (query : pystr) (s : State) :
  run self query s = kickoff (crew_of self query) s.
Proof.
  change (run self query s) with (bind (kickoff (crew_of self query)) ret s).
  apply bind_ret.
Qed.

Lemma run_spec (self : ShoppingCrew) (query : pystr) (s : State) :
  exists outs : list pystr,
    trace (snd (run self query s))
      = trace s ++ stage_events (crew_tasks self query) [] outs
    /\ environ (snd (run self query s)) = environ s
    /\ match fst (run self query s) with
       | Return result => length outs = 4%nat /\ last outs = Some result
       | Raise _ => (length outs < 4)%nat
       end.
Proof.
  rewrite run_kickoff. unfold kickoff.
  change (process (crew_of self query)) with sequential.
  change (tasks (crew_of self query)) with (crew_tasks self query).
  cbv iota.
  destruct (run_stages_spec (crew_tasks self query) [] [] s)
    as (outs & T & V & R);
    [apply crew_tasks_chained | apply crew_tasks_distinct | reflexivity |].
  change (combine [] []) with (@nil (Task * pystr)) in T, V, R.
  exists outs. unfold bind, ret.
  destruct (run_stages (crew_tasks self query) [] s) as [[done|e] s'];
    cbn [fst snd] in *.
  - destruct R as [-> L]. repeat split; try assumption.
    cbn [app]. rewrite final_output_combine by exact L.
    destruct outs as [|o outs]; [discriminate|].
    now destruct (last (o :: outs)) eqn:E; [|apply last_None in E].
  - repeat split; assumption.
Qed.

(** [__init__] instantiates the three tool adapters in order and stops
    at the first constructor that raises. *)
Lemma ShoppingCrew_init_spec (s : State) :
  environ (snd (ShoppingCrew_init s)) = environ s
  /\ match fst (ShoppingCrew_init s) with
     | Return crew =>
         crew = the_crew
         /\ trace (snd (ShoppingCrew_init s)) = trace s ++ tool_events
     | Raise _ =>
         exists n : nat,
           (1 <= n <= 3)%nat
           /\ trace (snd (ShoppingCrew_init s))
              = trace s ++ take n tool_events
     end.
Proof.
  unfold ShoppingCrew_init, new_tool, bind, emit, external, ret.
  cbn [environ world trace].
  destruct (tool_init SerperDevTool _ _) as [[[]|e1] w1];
    cbn [fst snd environ world trace];
    [|split; [reflexivity | exists 1%nat; split; [lia | reflexivity]]].
  destruct (tool_init WebsiteSearchTool _ _) as [[[]|e2] w2];
    cbn [fst snd environ world trace];
    [|split; [reflexivity | exists 2%nat; split; [lia|]];
      now rewrite <- app_assoc].
  destruct (tool_init ScrapeWebsiteTool _ _) as [[[]|e3] w3];
    cbn [fst snd environ world trace];
    (split; [reflexivity|]).
  - split; [reflexivity | now rewrite <- !app_assoc].
  - exists 3%nat. split; [lia | now rewrite <- !app_assoc].
Qed.

Lemma try_block_unfold (query : pystr) (s : State) :
  try_block query s
  = match ShoppingCrew_init s with
    | (Return shopping_crew, s1) => run shopping_crew query s1
    | (Raise e, s1) => (Raise e, s1)
    end.
Proof.
  unfold try_block. unfold bind at 1.
  destruct (ShoppingCrew_init s) as [[crew|e] s1];
    [apply bind_ret | reflexivity].
Qed.

(** The [try] block leaves the environment alone and goes one of the
    three ways of [pipeline_run]. *)
Lemma try_block_run (query : pystr) (s : State) :
  exists evs : list Event,
    trace (snd (try_block query s)) = trace s ++ evs
    /\ environ (snd (try_block query s)) = environ s
    /\ pipeline_run query (fst (try_block query s)) evs.
Proof.
  rewrite try_block_unfold.
  destruct (ShoppingCrew_init_spec s) as [V I].
  destruct (ShoppingCrew_init s) as [[crew|e] s1]; cbn [fst snd] in *.
  - destruct I as [-> T1].
    destruct (run_spec the_crew query s1) as (outs & T & V' & R).
    exists (tool_events ++ stage_events (crew_tasks the_crew query) [] outs).
    rewrite T, T1, V', V, <- app_assoc.
    repeat split.
    destruct (fst (run the_crew query s1)).
    + destruct R. now apply completed.
    + now apply stage_failed.
  - destruct I as (n & Hn & T1). exists (take n tool_events).
    repeat split; try assumption. now apply construction_failed.
Qed.

(** *** The two branches of [search_products] *)

Lemma validate_api_keys_blank (openai_key serper_key : pystr) :
  blank openai_key || blank serper_key = true ->
  validate_api_keys openai_key serper_key
  = Some (lit "Please enter both API keys").
Proof.
  intros B. unfold validate_api_keys.
  now rewrite !truthy_strip, !negb_involutive, B.
Qed.

Lemma validate_api_keys_nonspace (openai_key serper_key : pystr) :
  has_nonspace openai_key && has_nonspace serper_key = true ->
  validate_api_keys openai_key serper_key = None.
Proof.
  rewrite !has_nonspace_blank. intros B. unfold validate_api_keys.
  rewrite !truthy_strip, !negb_involutive.
  destruct (blank openai_key), (blank serper_key); (discriminate || reflexivity).
Qed.

Lemma search_products_blank (openai_key serper_key query : pystr)
    (s : State) :
  blank openai_key || blank serper_key = true ->
  search_products openai_key serper_key query s
  = (Return (lit "Please enter both API keys"), s).
Proof.
  intros B. unfold search_products.
  now rewrite (validate_api_keys_blank _ _ B).
Qed.

Lemma search_products_nonspace (openai_key serper_key query : pystr)
    (s : State) :
  has_nonspace openai_key && has_nonspace serper_key = true ->
  environ_refuses openai_key = None ->
  environ_refuses serper_key = None ->
  search_products openai_key serper_key query s
  = try_except_Exception (try_block query)
      (fun e => ret (lit "An error occurred: " ++ exc_str e))
      (with_keys openai_key serper_key s).
Proof.
  intros B A1 A2. unfold search_products.
  rewrite (validate_api_keys_nonspace _ _ B).
  unfold bind at 1. unfold setenv at 1. rewrite A1.
  unfold bind at 1. unfold setenv at 1. rewrite A2.
  reflexivity.
Qed.

(** The operating system refuses the first key: the first assignment
    raises and nothing has changed. *)
Lemma search_products_refused_first (openai_key serper_key query : pystr)
    (s : State) (e : PyExc) :
  has_nonspace openai_key && has_nonspace serper_key = true ->
  environ_refuses openai_key = Some e ->
  search_products openai_key serper_key query s = (Raise e, s).
Proof.
  intros B R. unfold search_products.
  rewrite (validate_api_keys_nonspace _ _ B).
  unfold bind at 1. unfold setenv at 1. rewrite R.
  reflexivity.
Qed.

(** It takes the first key and refuses the second: the second
    assignment raises after the first was made. *)
Lemma search_products_refused_second (openai_key serper_key query : pystr)
    (s : State) (e : PyExc) :
  has_nonspace openai_key && has_nonspace serper_key = true ->
  environ_refuses openai_key = None ->
  environ_refuses serper_key = Some e ->
  search_products openai_key serper_key query s
  = (Raise e, with_openai_key openai_key s).
Proof.
  intros B A1 R. unfold search_products.
  rewrite (validate_api_keys_nonspace _ _ B).
  unfold bind at 1. unfold setenv at 1. rewrite A1.
  unfold bind at 1. unfold setenv at 1. rewrite R.
  reflexivity.
Qed.
End Pipeline.

(** ** The request handler *)

Section Handler.
Context `{Externals}.

(** With two keys that pass validation and that the operating system
    takes, the handler is the [try] block run after the two
    assignments, its outcome passed through the handler. *)
Lemma search_products_outcome (openai_key serper_key query : pystr)
    (s : State) :
  has_nonspace openai_key && has_nonspace serper_key = true ->
  environ_refuses openai_key = None ->
  environ_refuses serper_key = None ->
  search_products openai_key serper_key query s
  = (reported (fst (try_block query (with_keys openai_key serper_key s))),
     snd (try_block query (with_keys openai_key serper_key s))).
Proof.
  intros V A1 A2. rewrite (search_products_nonspace _ _ _ _ V A1 A2).
  unfold try_except_Exception, reported, ret.
  destruct (try_block query (with_keys openai_key serper_key s))
    as [[r|e] s']; cbn [fst snd]; [reflexivity|].
  now destruct (derives_Exception e).
Qed.

Lemma search_products_environ (openai_key serper_key query : pystr)
    (s : State) :
  has_nonspace openai_key && has_nonspace serper_key = true ->
  environ_refuses openai_key = None ->
  environ_refuses serper_key = None ->
  environ (snd (search_products openai_key serper_key query s))
  = <["SERPER_API_KEY" := serper_key]>
      (<["OPENAI_API_KEY" := openai_key]> (environ s)).
Proof.
  intros V A1 A2. rewrite (search_products_outcome _ _ _ _ V A1 A2).
  cbn [snd].
  destruct (try_block_run query (with_keys openai_key serper_key s))
    as (evs & _ & E & _).
  exact E.
Qed.

Lemma search_products_run (openai_key serper_key query : pystr)
    (s : State) :
  has_nonspace openai_key && has_nonspace serper_key = true ->
  environ_refuses openai_key = None ->
  environ_refuses serper_key = None ->
  exists evs : list Event,
    adds (search_products openai_key serper_key query) s evs
    /\ pipeline_run query
         (fst (try_block query (with_keys openai_key serper_key s))) evs.
Proof.
  intros V A1 A2. unfold adds.
  rewrite (search_products_outcome _ _ _ _ V A1 A2). cbn [snd].
  destruct (try_block_run query (with_keys openai_key serper_key s))
    as (evs & T & _ & P).
  exists evs. split; [exact T | exact P].
Qed.

(** The four ways of a request: validation fails; the first assignment
    raises; the second assignment raises; the [try] statement is
    reached. *)
Lemma search_products_cases (openai_key serper_key query : pystr)
    (s : State) :
  (blank openai_key || blank serper_key = true
   /\ search_products openai_key serper_key query s
      = (Return (lit "Please enter both API keys"), s))
  \/ (has_nonspace openai_key && has_nonspace serper_key = true
      /\ exists e : PyExc,
           environ_refuses openai_key = Some e
           /\ search_products openai_key serper_key query s = (Raise e, s))
  \/ (has_nonspace openai_key && has_nonspace serper_key = true
      /\ environ_refuses openai_key = None
      /\ exists e : PyExc,
           environ_refuses serper_key = Some e
           /\ search_products openai_key serper_key query s
              = (Raise e, with_openai_key openai_key s))
  \/ (has_nonspace openai_key && has_nonspace serper_key = true
      /\ environ_refuses openai_key = None
      /\ environ_refuses serper_key = None
      /\ search_products openai_key serper_key query s
         = (reported
              (fst (try_block query (with_keys openai_key serper_key s))),
            snd (try_block query (with_keys openai_key serper_key s)))).
Proof.
  destruct (blank openai_key || blank serper_key) eqn:B.
  - left. split; [reflexivity|]. now apply search_products_blank.
  - right.
    assert (V : has_nonspace openai_key && has_nonspace serper_key = true).
    { rewrite !has_nonspace_blank.
      now destruct (blank openai_key), (blank serper_key). }
    destruct (environ_refuses openai_key) as [e1|] eqn:R1.
    + left. split; [exact V|]. exists e1. split; [reflexivity|].
      now apply search_products_refused_first.
    + right. destruct (environ_refuses serper_key) as [e2|] eqn:R2.
      * left. split; [exact V|]. split; [reflexivity|].
        exists e2. split; [reflexivity|].
        now apply search_products_refused_second.
      * right. split; [exact V|]. split; [reflexivity|].
        split; [reflexivity|]. now apply search_products_outcome.
Qed.

(** Whatever the keys and the outcome, a request adds events to the
    trace and leaves every variable other than the two credentials as
    it was. *)
Lemma search_products_frame (openai_key serper_key query : pystr)
    (s : State) (k : string) :
  k <> "OPENAI_API_KEY"%string -> k <> "SERPER_API_KEY"%string ->
  environ (snd (search_products openai_key serper_key query s)) !! k
  = environ s !! k.
Proof.
  intros K1 K2.
  destruct (search_products_cases openai_key serper_key query s)
    as [[_ E] | [(_ & e & _ & E) | [(_ & _ & e & _ & E)
        | (V & A1 & A2 & _)]]].
  - now rewrite E.
  - now rewrite E.
  - rewrite E. cbn. now rewrite lookup_insert_ne by congruence.
  - rewrite (search_products_environ _ _ query s V A1 A2).
    now rewrite !lookup_insert_ne by congruence.
Qed.

Lemma distinct_NoDup (ts : list Task) : distinct ts -> NoDup ts.
Proof.
  intros D. apply NoDup_alt. intros i j t Hi Hj.
  destruct (decide (i = j)) as [|Hne]; [assumption|].
  pose proof (D i j t t Hi Hj Hne) as F.
  rewrite Task_eqb_refl in F. discriminate.
Qed.
End Handler.

(** ** Where an exception of the pipeline comes from *)

Section Propagation.
Context `{Externals}.

Lemma run_stages_app (l1 : list Task) :
  forall (l2 : list Task) (done : list (Task * pystr)) (s : State),
    run_stages (l1 ++ l2) done s
    = match run_stages l1 done s with
      | (Return done', s') => run_stages l2 done' s'
      | (Raise e, s') => (Raise e, s')
      end.
Proof.
  induction l1 as [|t l1 IH]; intros l2 done s; [reflexivity|].
  cbn [app run_stages]. unfold bind, emit, external.
  cbn [environ world trace].
  destruct (execute_task t (effective_prompt done t) (environ s) (world s))
    as [[o|e] w]; [|reflexivity].
  cbn [environ world trace]. apply IH.
Qed.

(** A stage that raises after the stages before it returned makes the
    run of the stages raise the same exception. *)
Lemma run_stages_raises (before after : list Task) (t : Task)
    (done : list (Task * pystr)) (s1 s2 : State) (e : PyExc) (w : World) :
  run_stages before [] s1 = (Return done, s2) ->
  execute_task t (effective_prompt done t) (environ s2) (world s2)
  = (Raise e, w) ->
  fst (run_stages (before ++ t :: after) [] s1) = Raise e.
Proof.
  intros B E. rewrite run_stages_app, B.
  cbn [run_stages]. unfold bind, emit, external.
  cbn [environ world trace]. now rewrite E.
Qed.

(** Conversely, a run of stages that raises was made to by one of its
    stages, after the stages before it returned. *)
Lemma run_stages_raised_by (ts : list Task) :
  forall (done0 : list (Task * pystr)) (s1 : State) (e : PyExc),
    fst (run_stages ts done0 s1) = Raise e ->
    exists (before after : list Task) (t : Task)
           (done : list (Task * pystr)) (s2 : State) (w : World),
      ts = before ++ t :: after
      /\ run_stages before done0 s1 = (Return done, s2)
      /\ execute_task t (effective_prompt done t) (environ s2) (world s2)
         = (Raise e, w).
Proof.
  induction ts as [|t ts IH]; intros done0 s1 e R; [discriminate R|].
  cbn [run_stages] in R. unfold bind, emit, external in R.
  cbn [environ world trace] in R.
  destruct (execute_task t (effective_prompt done0 t) (environ s1) (world s1))
    as [[o|e'] w] eqn:E.
  - cbn [environ world trace] in R.
    destruct (IH _ _ _ R) as (before & after & t' & done & s2 & w' & -> & B & E').
    exists (t :: before), after, t', done, s2, w'.
    split; [reflexivity|]. split; [|exact E'].
    cbn [run_stages]. unfold bind, emit, external.
    cbn [environ world trace]. rewrite E. cbn [environ world trace].
    exact B.
  - cbn [fst] in R. injection R as ->.
    exists [], ts, t, done0, s1, w. repeat split. exact E.
Qed.

Lemma run_run_stages (self : ShoppingCrew) (query : pystr) (s : State) :
  fst (run self query s)
  = match fst (run_stages (crew_tasks self query) [] s) with
    | Return done => Return (final_output done)
    | Raise e => Raise e
    end.
Proof.
  rewrite run_kickoff. unfold kickoff.
  change (process (crew_of self query)) with sequential.
  change (tasks (crew_of self query)) with (crew_tasks self query).
  cbv iota. unfold bind, ret.
  now destruct (run_stages (crew_tasks self query) [] s) as [[done|e] s'].
Qed.

(** The [try] block raises [e] exactly when [e] is raised during the
    construction or during a stage. *)
Lemma try_block_raises_iff (query : pystr) (s0 : State) (e : PyExc) :
  fst (try_block query s0) = Raise e <-> raised_in_pipeline query s0 e.
Proof.
  rewrite try_block_unfold. split.
  - intros R.
    destruct (ShoppingCrew_init s0) as [[crew|e0] s1] eqn:I.
    + rewrite run_run_stages in R.
      destruct (fst (run_stages (crew_tasks crew query) [] s1))
        as [done|e1] eqn:S; [discriminate R|]. injection R as ->.
      destruct (run_stages_raised_by _ _ _ _ S)
        as (before & after & t & done & s2 & w & T & B & E).
      exact (raised_by_stage query s0 e crew s1 s2 before after t done w
               I T B E).
    + cbn [fst] in R. injection R as ->. revert I.
      unfold ShoppingCrew_init, new_tool, bind, emit, external, ret.
      cbn [environ world trace].
      destruct (tool_init SerperDevTool (environ s0) (world s0))
        as [[[]|e1] w1] eqn:T1; cbn [environ world trace].
      * destruct (tool_init WebsiteSearchTool (environ s0) w1)
          as [[[]|e2] w2] eqn:T2; cbn [environ world trace].
        -- destruct (tool_init ScrapeWebsiteTool (environ s0) w2)
             as [[[]|e3] w3] eqn:T3; cbn [environ world trace];
             intros [= <- _] || intros [=].
           exact (raised_by_scrape_tool query s0 _ w1 w2 w3 T1 T2 T3).
        -- intros [= <- _].
           exact (raised_by_website_search_tool query s0 _ w1 w2 T1 T2).
      * intros [= <- _].
        exact (raised_by_search_tool query s0 _ w1 T1).
  - intros [w T1 | w1 w T1 T2 | w1 w2 w T1 T2 T3
            | crew s1 s2 before after t done w I T B E].
    + unfold ShoppingCrew_init, new_tool, bind, emit, external, ret.
      cbn [environ world trace]. now rewrite T1.
    + unfold ShoppingCrew_init, new_tool, bind, emit, external, ret.
      cbn [environ world trace]. rewrite T1. cbn [environ world trace].
      now rewrite T2.
    + unfold ShoppingCrew_init, new_tool, bind, emit, external, ret.
      cbn [environ world trace]. rewrite T1. cbn [environ world trace].
      rewrite T2. cbn [environ world trace]. now rewrite T3.
    + rewrite I, run_run_stages, T.
      now rewrite (run_stages_raises before after t done s1 s2 e w B E).
Qed.

(** With keys that pass validation and that the operating system takes,
    once the three constructors returned, [run] is called on the crew
    they built, its outcome is the one the handler reports, and the
    first stage begins with the description of the first task. *)
Lemma search_products_runs_crew (openai_key serper_key query : pystr)
    (s s1 : State) (crew : ShoppingCrew) :
  has_nonspace openai_key && has_nonspace serper_key = true ->
  environ_refuses openai_key = None ->
  environ_refuses serper_key = None ->
  ShoppingCrew_init (with_keys openai_key serper_key s) = (Return crew, s1) ->
  crew = the_crew
  /\ search_products openai_key serper_key query s
     = (reported (fst (run the_crew query s1)), snd (run the_crew query s1))
  /\ exists (first : Task) (evs : list Event),
       crew_tasks the_crew query !! 0%nat = Some first
       /\ adds (search_products openai_key serper_key query) s
            (tool_events ++ Started first (description first) :: evs).
Proof.
  intros V A1 A2 I.
  pose proof (ShoppingCrew_init_spec (with_keys openai_key serper_key s))
    as [_ C].
  rewrite I in C. cbn [fst snd] in C. destruct C as [-> T1].
  split; [reflexivity|].
  assert (O : search_products openai_key serper_key query s
              = (reported (fst (run the_crew query s1)),
                 snd (run the_crew query s1))).
  { rewrite (search_products_outcome _ _ query s V A1 A2).
    now rewrite try_block_unfold, I. }
  split; [exact O|].
  destruct (run_spec the_crew query s1) as (outs & T & _ & _).
  pose proof (crew_tasks_length the_crew query) as L.
  destruct (crew_tasks the_crew query) as [|first ts] eqn:E;
    [discriminate L|].
  exists first. eexists. split; [reflexivity|].
  unfold adds. rewrite O. cbn [snd]. rewrite T, T1.
  cbn [stage_events concat]. rewrite app_nil_r.
  change (trace (with_keys openai_key serper_key s)) with (trace s).
  now rewrite <- app_assoc.
Qed.
End Propagation.

(** ** The program on examples *)

Example isspace_examples :
  isspace 0x20 = true /\ isspace 0x0A = true /\ isspace 0x3000 = true
  /\ isspace 0x200B = false /\ isspace 0x61 = false.
Proof. repeat split. Qed.

Example strip_example : strip (lit "  sk-1 ") = lit "sk-1".
Proof. reflexivity. Qed.

Example validate_api_keys_examples :
  validate_api_keys (lit "") (lit "abc")
  = Some (lit "Please enter both API keys")
  /\ validate_api_keys (lit "sk-1") (lit "   ")
     = Some (lit "Please enter both API keys")
  /\ validate_api_keys (lit "sk-1") (lit "abc") = None.
Proof. repeat split. Qed.

(** What the operating system takes as a value of the environment. *)
Example environ_refuses_examples :
  environ_refuses (lit "sk-1") = None
  /\ environ_refuses [0xDC80] = None
  /\ environ_refuses NUL_key = Some embedded_null_byte
  /\ exc_str <$> environ_refuses surrogate_key
     = Some (lit "'utf-8' codec can't encode character '\ud800' in position 1: surrogates not allowed")
  /\ exc_str <$> environ_refuses [0x61; 0x62; 0xDFFF; 0xDC90; 0xD900; 0x7A]
     = Some (lit "'utf-8' codec can't encode characters in position 2-4: surrogates not allowed")
  /\ exc_str <$> environ_refuses [0; 0xD800]
     = Some (lit "'utf-8' codec can't encode character '\ud800' in position 1: surrogates not allowed").
Proof. repeat split. Qed.

(** A key with a NUL passes validation and stops the request at the
    first assignment. *)
Example NUL_key_request :
  validate_api_keys NUL_key (lit "abc") = None
  /\ @search_products echo_world NUL_key (lit "abc") (lit "monitor")
       (initial_state echo_world 0%nat)
     = (Raise embedded_null_byte, initial_state echo_world 0%nat).
Proof. repeat split. Qed.

(** A tool constructor that raises: the handler reports it and no stage
    begins. *)
Example construction_failure_reported :
  @search_products (broken_tool_world WebsiteSearchTool ConnectionError)
    (lit "sk-1") (lit "abc") (lit "monitor")
    (initial_state (broken_tool_world WebsiteSearchTool ConnectionError) 0%nat)
  = (Return (lit "An error occurred: Connection refused"),
     @mkState (broken_tool_world WebsiteSearchTool ConnectionError)
       (<["SERPER_API_KEY" := lit "abc"]>
          (<["OPENAI_API_KEY" := lit "sk-1"]> ∅))
       0%nat
       [ToolInit SerperDevTool; ToolInit WebsiteSearchTool]).
Proof. reflexivity. Qed.

(** The four stages in the world that echoes the roles. *)
Example echo_run_result :
  fst (@search_products echo_world (lit "sk-1") (lit "abc") (lit "monitor")
         (initial_state echo_world 0%nat))
  = Return (lit "[Shopping Report Specialist]")
  /\ outputs (trace (snd (@search_products echo_world
                            (lit "sk-1") (lit "abc") (lit "monitor")
                            (initial_state echo_world 0%nat))))
     = [lit "[Product Specification Verifier]";
        lit "[Product Research Specialist]";
        lit "[Deals Analysis Expert]";
        lit "[Shopping Report Specialist]"].
Proof. split; vm_compute; reflexivity. Qed.

(** * The claims of the specification *)

(** ** Validation of the credentials *)

(** C1, as the code has it. When one of the two credential strings is
    empty or made of whitespace only, [search_products] returns exactly
    "Please enter both API keys", whatever the query, and neither builds
    nor runs the pipeline: the state is the one it was called in and no
    event is added. When both strings hold a character that is not
    whitespace, validation passes ([validate_api_keys] returns [None]);
    and when moreover the operating system takes both strings as values
    of the environment, the handler is the guarded construction and run
    of the pipeline: the constructor of the first tool adapter is called,
    the events are those of one of the ways the pipeline can go, and once
    the three constructors returned, [run] is called on the crew they
    built, the handler reports its outcome, and the first stage begins. *)
Theorem search_products_checks_keys `{Externals}
    (openai_key serper_key query : pystr) (s : State) :
  (blank openai_key || blank serper_key = true ->
     search_products openai_key serper_key query s
     = (Return (lit "Please enter both API keys"), s)
     /\ adds (search_products openai_key serper_key query) s [])
  /\ (has_nonspace openai_key && has_nonspace serper_key = true ->
      validate_api_keys openai_key serper_key = None
      /\ (environ_refuses openai_key = None ->
          environ_refuses serper_key = None ->
          search_products openai_key serper_key query s
          = try_except_Exception (try_block query)
              (fun e => ret (lit "An error occurred: " ++ exc_str e))
              (with_keys openai_key serper_key s)
          /\ (exists evs : list Event,
                adds (search_products openai_key serper_key query) s
                  (ToolInit SerperDevTool :: evs)
                /\ pipeline_run query
                     (fst (try_block query
                             (with_keys openai_key serper_key s)))
                     (ToolInit SerperDevTool :: evs))
          /\ (forall (crew : ShoppingCrew) (s1 : State),
                ShoppingCrew_init (with_keys openai_key serper_key s)
                = (Return crew, s1) ->
                crew = the_crew
                /\ search_products openai_key serper_key query s
                   = (reported (fst (run the_crew query s1)),
                      snd (run the_crew query s1))
                /\ exists (first : Task) (evs : list Event),
                     crew_tasks the_crew query !! 0%nat = Some first
                     /\ adds (search_products openai_key serper_key query) s
                          (tool_events
                           ++ Started first (description first) :: evs)))).
Proof.
  split.
  - intros B. unfold adds.
    rewrite (search_products_blank _ _ _ _ B). cbn [snd].
    now rewrite app_nil_r.
  - intros V. split; [now apply validate_api_keys_nonspace|].
    intros A1 A2.
    split; [now apply search_products_nonspace|].
    split.
    + destruct (search_products_run _ _ query s V A1 A2) as (evs & A & P).
      assert (exists evs', evs = ToolInit SerperDevTool :: evs') as [evs' ->].
      { destruct P as [n e Hn| |].
        - destruct n as [|n]; [lia|]. now eexists.
        - now eexists.
        - now eexists. }
      exists evs'. split; assumption.
    + intros crew s1 I.
      exact (search_products_runs_crew _ _ query s s1 crew V A1 A2 I).
Qed.

Lemma search_products_checks_keys_witness :
  @search_products echo_world (lit "") (lit "abc") (lit "monitor")
     (initial_state echo_world 0%nat)
  = (Return (lit "Please enter both API keys"), initial_state echo_world 0%nat)
  /\ validate_api_keys (lit "sk-1") (lit "abc") = None
  /\ exists evs : list Event,
       adds (@search_products echo_world (lit "sk-1") (lit "abc")
               (lit "monitor"))
         (initial_state echo_world 0%nat) (ToolInit SerperDevTool :: evs)
       /\ pipeline_run (lit "monitor")
            (fst (@try_block echo_world (lit "monitor")
                    (with_keys (lit "sk-1") (lit "abc")
                       (initial_state echo_world 0%nat))))
            (ToolInit SerperDevTool :: evs).
Proof.
  split; [|split].
  - apply (proj1 (@search_products_checks_keys echo_world
                    (lit "") (lit "abc") (lit "monitor")
                    (initial_state echo_world 0%nat))).
    reflexivity.
  - apply (proj2 (@search_products_checks_keys echo_world
                    (lit "sk-1") (lit "abc") (lit "monitor")
                    (initial_state echo_world 0%nat))).
    reflexivity.
  - apply (proj2 (proj2 (@search_products_checks_keys echo_world
                           (lit "sk-1") (lit "abc") (lit "monitor")
                           (initial_state echo_world 0%nat))
                   eq_refl) eq_refl eq_refl).
Defined.

(** C1, as the specification has it, fails on a key that passes
    validation and that the operating system refuses: with a key that
    holds a NUL, validation passes, and the first assignment to the
    environment raises before the [try] statement; [search_products]
    raises that exception in the state it was called in, no tool adapter
    built and no stage run. *)
Lemma search_products_NUL_key_builds_nothing :
  has_nonspace NUL_key && has_nonspace (lit "abc") = true
  /\ validate_api_keys NUL_key (lit "abc") = None
  /\ @search_products echo_world NUL_key (lit "abc") (lit "monitor")
       (initial_state echo_world 0%nat)
     = (Raise embedded_null_byte, initial_state echo_world 0%nat)
  /\ trace (snd (@search_products echo_world NUL_key (lit "abc")
                    (lit "monitor") (initial_state echo_world 0%nat)))
     = [].
Proof. repeat split. Qed.

(** C8. When validation fails, [search_products] returns before the two
    assignments: the process environment after the call is the one
    before it, and in particular the two credential variables read as
    they did. *)
Theorem search_products_invalid_keeps_environ `{Externals}
    (openai_key serper_key query : pystr) (s : State) :
  blank openai_key || blank serper_key = true ->
  environ (snd (search_products openai_key serper_key query s)) = environ s
  /\ environ (snd (search_products openai_key serper_key query s))
       !! "OPENAI_API_KEY" = environ s !! "OPENAI_API_KEY"
  /\ environ (snd (search_products openai_key serper_key query s))
       !! "SERPER_API_KEY" = environ s !! "SERPER_API_KEY".
Proof.
  intros B. rewrite (search_products_blank _ _ _ _ B). cbn [snd]. auto.
Qed.

Lemma search_products_invalid_keeps_environ_witness :
  environ (snd (@search_products echo_world (lit "  ") (lit "abc")
                  (lit "monitor") (earlier_keys echo_world 0%nat)))
    !! "OPENAI_API_KEY" = Some (lit "old-openai").
Proof.
  rewrite (proj1 (proj2 (@search_products_invalid_keeps_environ echo_world
             (lit "  ") (lit "abc") (lit "monitor")
             (earlier_keys echo_world 0%nat) eq_refl))).
  reflexivity.
Defined.

(** ** The process environment *)







(** ** Failures of the pipeline *)

(** C2, as the code has it. In a request that reaches the [try]
    statement (two credential strings that pass validation and that the
    operating system takes as values of the environment), when the
    constructor of a tool adapter or the agent of a stage raises an
    exception whose class derives from [Exception], [search_products]
    returns "An error occurred: " followed by the text of the exception
    and nothing else. The run stopped there: the stages that began are
    the first [n] tasks, the stages that returned are the first [n - 1],
    so that no stage after the failing one began and the report stage
    did not return. *)
Theorem search_products_reports_Exception `{Externals}
    (openai_key serper_key query : pystr) (s : State) (e : PyExc) :
  has_nonspace openai_key && has_nonspace serper_key = true ->
  environ_refuses openai_key = None ->
  environ_refuses serper_key = None ->
  raised_in_pipeline query (with_keys openai_key serper_key s) e ->
  derives_Exception e = true ->
  fst (search_products openai_key serper_key query s)
  = Return (lit "An error occurred: " ++ exc_str e)
  /\ exists (evs : list Event) (n : nat),
       adds (search_products openai_key serper_key query) s evs
       /\ (n <= 4)%nat
       /\ started_tasks evs = take n (crew_tasks the_crew query)
       /\ finished_tasks evs = take (n - 1) (crew_tasks the_crew query).
Proof.
  intros V A1 A2 R D. apply try_block_raises_iff in R. split.
  - rewrite (search_products_outcome _ _ query s V A1 A2). cbn [fst].
    rewrite R. cbn [reported]. now rewrite D.
  - destruct (search_products_run _ _ query s V A1 A2) as (evs & A & P).
    exists evs. rewrite R in P.
    inversion P as [n e' Hn | outs e' Hl | ]; subst.
    + exists 0%nat. split; [exact A|]. split; [lia|].
      destruct n as [|[|[|[|n]]]]; try lia; now split.
    + exists (S (length outs)). split; [exact A|]. split; [lia|].
      unfold started_tasks, finished_tasks. rewrite !omap_app.
      change (omap _ tool_events) with (@nil Task). cbn [app].
      split; [apply started_stage_events|].
      replace (S (length outs) - 1)%nat with (length outs) by lia.
      apply finished_stage_events.
Qed.

(** The scenario of the specification: a connectivity failure during
    the second stage. *)
Lemma search_products_reports_Exception_witness :
  fst (@search_products (failing_world 1 ConnectionError)
         (lit "sk-1") (lit "abc") (lit "monitor")
         (initial_state (failing_world 1 ConnectionError) 0%nat))
  = Return (lit "An error occurred: Connection refused")
  /\ exists (evs : list Event) (n : nat),
       adds (@search_products (failing_world 1 ConnectionError)
               (lit "sk-1") (lit "abc") (lit "monitor"))
         (initial_state (failing_world 1 ConnectionError) 0%nat) evs
       /\ (n <= 4)%nat
       /\ started_tasks evs = take n (crew_tasks the_crew (lit "monitor"))
       /\ finished_tasks evs
          = take (n - 1) (crew_tasks the_crew (lit "monitor")).
Proof.
  apply (@search_products_reports_Exception (failing_world 1 ConnectionError)
           (lit "sk-1") (lit "abc") (lit "monitor")
           (initial_state (failing_world 1 ConnectionError) 0%nat)
           ConnectionError).
  - reflexivity.
  - reflexivity.
  - reflexivity.
  - eapply (@raised_by_stage (failing_world 1 ConnectionError)
              (lit "monitor") _ ConnectionError the_crew _ _
              [monitor_task 0] [monitor_task 2; monitor_task 3]
              (monitor_task 1)).
    + vm_compute. reflexivity.
    + reflexivity.
    + vm_compute. reflexivity.
    + vm_compute. reflexivity.
  - reflexivity.
Defined.

(** C2, as the specification has it ("any exception"), fails: an
    interruption raised by the agent of the second stage, after the
    first stage returned, is not an [Exception]; the [except] clause
    lets it through and [search_products] raises it instead of returning
    the "An error occurred: " string. *)
Lemma search_products_lets_interrupt_through :
  has_nonspace (lit "sk-1") && has_nonspace (lit "abc") = true
  /\ environ_refuses (lit "sk-1") = None
  /\ environ_refuses (lit "abc") = None
  /\ @raised_in_pipeline (failing_world 1 KeyboardInterrupt) (lit "monitor")
       (with_keys (lit "sk-1") (lit "abc")
          (initial_state (failing_world 1 KeyboardInterrupt) 0%nat))
       KeyboardInterrupt
  /\ fst (@try_block (failing_world 1 KeyboardInterrupt) (lit "monitor")
            (with_keys (lit "sk-1") (lit "abc")
               (initial_state (failing_world 1 KeyboardInterrupt) 0%nat)))
     = Raise KeyboardInterrupt
  /\ fst (@search_products (failing_world 1 KeyboardInterrupt)
            (lit "sk-1") (lit "abc") (lit "monitor")
            (initial_state (failing_world 1 KeyboardInterrupt) 0%nat))
     = Raise KeyboardInterrupt
  /\ fst (@search_products (failing_world 1 KeyboardInterrupt)
            (lit "sk-1") (lit "abc") (lit "monitor")
            (initial_state (failing_world 1 KeyboardInterrupt) 0%nat))
     <> Return (lit "An error occurred: " ++ exc_str KeyboardInterrupt).
Proof.
  split; [reflexivity|]. split; [reflexivity|]. split; [reflexivity|].
  split.
  { eapply (@raised_by_stage (failing_world 1 KeyboardInterrupt)
              (lit "monitor") _ KeyboardInterrupt the_crew _ _
              [monitor_task 0] [monitor_task 2; monitor_task 3]
              (monitor_task 1)).
    - vm_compute. reflexivity.
    - reflexivity.
    - vm_compute. reflexivity.
    - vm_compute. reflexivity. }
  split; [vm_compute; reflexivity|].
  split; [vm_compute; reflexivity|].
  vm_compute. discriminate.
Qed.

(** ** The tasks and their contexts *)

(** C3. For every query (and whatever the four agents), the context of
    the task at position [n] of [create_tasks] is the list of the tasks
    before it, complete and in order: none for the first, [verification]
    for the second, [verification; research] for the third,
    [verification; research; deal_finding] for the fourth. In a run,
    whenever the stage of a task begins, the stages that returned so far
    are those of the tasks before it, and its prompt is its description
    followed by the full outputs of all of them, in order. *)
Theorem create_tasks_context_chaining `{Externals} (query : pystr) :
  (forall (va ra da pa : Agent) (n : nat) (t : Task),
     create_tasks query va ra da pa !! n = Some t ->
     context t = take n (create_tasks query va ra da pa))
  /\ (forall (va ra da pa : Agent)
             (verification research deal_finding report : Task),
        create_tasks query va ra da pa
        = [verification; research; deal_finding; report] ->
        context verification = []
        /\ context research = [verification]
        /\ context deal_finding = [verification; research]
        /\ context report = [verification; research; deal_finding])
  /\ (forall (self : ShoppingCrew) (s : State)
             (evs1 evs2 : list Event) (t : Task) (prompt : pystr),
        adds (run self query) s (evs1 ++ Started t prompt :: evs2) ->
        exists n : nat,
          crew_tasks self query !! n = Some t
          /\ finished_tasks evs1 = take n (crew_tasks self query)
          /\ context t = finished_tasks evs1
          /\ prompt = description t ++ concat (outputs evs1)).
Proof.
  split; [intros va ra da pa; apply create_tasks_chained|].
  split.
  - intros va ra da pa t1 t2 t3 t4 E.
    pose proof (create_tasks_chained query va ra da pa) as C.
    rewrite E in C.
    rewrite (C 0%nat t1), (C 1%nat t2), (C 2%nat t3), (C 3%nat t4);
      repeat split; reflexivity.
  - intros self s evs1 evs2 t prompt A. unfold adds in A.
    destruct (run_spec self query s) as (outs & T & _ & _).
    rewrite T in A. apply app_inv_head in A.
    destruct (stage_events_started _ _ _ _ _ _ _ A) as (n & Hn & Hf & Hp).
    exists n. split; [exact Hn|]. split; [exact Hf|].
    split; [|exact Hp].
    rewrite Hf. now apply crew_tasks_chained.
Qed.

(** The run for "monitor" in the world that echoes the roles, at the
    moment the report stage begins. *)
Lemma create_tasks_context_chaining_witness :
  exists n : nat,
    crew_tasks the_crew (lit "monitor") !! n = Some (monitor_task 3)
    /\ finished_tasks monitor_events_before_report
       = take n (crew_tasks the_crew (lit "monitor"))
    /\ context (monitor_task 3)
       = finished_tasks monitor_events_before_report
    /\ description (monitor_task 3)
         ++ echo_output 0 ++ echo_output 1 ++ echo_output 2
       = description (monitor_task 3)
         ++ concat (outputs monitor_events_before_report).
Proof.
  apply (proj2 (proj2 (@create_tasks_context_chaining echo_world
                         (lit "monitor")))
           the_crew (initial_state echo_world 0%nat)
           monitor_events_before_report
           [Finished (monitor_task 3) (echo_output 3)]).
  unfold adds. vm_compute. reflexivity.
Defined.

(** C4, as the code has it. [create_tasks] builds the same four records
    for every input, bound to the four agents in the order given. The
    query is interpolated into the descriptions of the first two tasks,
    verification and research, each time between two fixed texts; the
    descriptions of the third and fourth tasks, and the four expected
    outputs, are fixed texts that do not embed it. *)
Theorem create_tasks_query_interpolation :
  exists suffix1 suffix2 d3 d4 e1 e2 e3 e4 : pystr,
    forall (query : pystr) (va ra da pa : Agent),
      List.map description (create_tasks query va ra da pa)
      = [lit "Verify exact product specifications for: " ++ query ++ suffix1;
         lit "Research this product in detail: " ++ query ++ suffix2;
         d3; d4]
      /\ List.map agent (create_tasks query va ra da pa) = [va; ra; da; pa]
      /\ List.map expected_output (create_tasks query va ra da pa)
         = [e1; e2; e3; e4].
Proof.
  do 8 eexists. intros query va ra da pa.
  cbv beta iota zeta
    delta [create_tasks List.map description agent expected_output].
  split; [|split]; reflexivity.
Qed.

(** The part of C4 that holds: the last two descriptions are the same
    for every query. *)
Lemma create_tasks_last_two_query_free : query_free 2 /\ query_free 3.
Proof. split; intros q q' va ra da pa; reflexivity. Qed.

(** C4, as the specification has it, fails on the second task: its
    description is not the same for "monitor" and for "laptop", and the
    one for "monitor" begins with the query interpolated after the
    opening words. *)
Lemma research_description_embeds_query :
  task_description 1 (lit "monitor")
    (mkAgent [] [] [] [] true) (mkAgent [] [] [] [] true)
    (mkAgent [] [] [] [] true) (mkAgent [] [] [] [] true)
  <> task_description 1 (lit "laptop")
       (mkAgent [] [] [] [] true) (mkAgent [] [] [] [] true)
       (mkAgent [] [] [] [] true) (mkAgent [] [] [] [] true)
  /\ take 40 <$> task_description 1 (lit "monitor")
                   (mkAgent [] [] [] [] true) (mkAgent [] [] [] [] true)
                   (mkAgent [] [] [] [] true) (mkAgent [] [] [] [] true)
     = Some (lit "Research this product in detail: monitor")
  /\ ~ query_free 1.
Proof.
  assert (D : task_description 1 (lit "monitor")
                (mkAgent [] [] [] [] true) (mkAgent [] [] [] [] true)
                (mkAgent [] [] [] [] true) (mkAgent [] [] [] [] true)
              <> task_description 1 (lit "laptop")
                   (mkAgent [] [] [] [] true) (mkAgent [] [] [] [] true)
                   (mkAgent [] [] [] [] true) (mkAgent [] [] [] [] true)).
  { vm_compute. discriminate. }
  split; [exact D|]. split; [vm_compute; reflexivity|].
  intros Q. apply D, Q.
Qed.

(** ** The order of the stages and the result *)

Lemma NoDup_take {A : Type} (n : nat) (l : list A) :
  NoDup l -> NoDup (take n l).
Proof.
  intros N. rewrite <- (take_drop n l) in N.
  now apply NoDup_app in N as [N _].
Qed.

Lemma started_tasks_pipeline (query : pystr) (o : outcome pystr)
    (evs : list Event) :
  pipeline_run query o evs ->
  exists n : nat,
    (n <= 4)%nat
    /\ started_tasks evs = take n (crew_tasks the_crew query)
    /\ (forall result, o = Return result -> n = 4%nat).
Proof.
  intros [n e Hn | outs e Hl | outs result Hl Ho].
  - exists 0%nat. split; [lia|]. split; [|discriminate].
    destruct n as [|[|[|[|n]]]]; try lia; reflexivity.
  - exists (S (length outs)). split; [lia|]. split; [|discriminate].
    unfold started_tasks. rewrite omap_app.
    change (omap _ tool_events) with (@nil Task). cbn [app].
    apply started_stage_events.
  - exists 4%nat. split; [lia|]. split; [|reflexivity].
    unfold started_tasks. rewrite omap_app.
    change (omap _ tool_events) with (@nil Task). cbn [app].
    fold (started_tasks (stage_events (crew_tasks the_crew query) [] outs)).
    rewrite started_stage_events, Hl.
    rewrite (take_ge _ 5), (take_ge _ 4); [reflexivity | |];
      rewrite crew_tasks_length; lia.
Qed.

(** The two tests on the keys exclude each other. *)
Lemma blank_not_nonspace (openai_key serper_key : pystr) :
  blank openai_key || blank serper_key = true ->
  has_nonspace openai_key && has_nonspace serper_key = true -> False.
Proof.
  rewrite !has_nonspace_blank.
  now destruct (blank openai_key), (blank serper_key).
Qed.

(** C5. For every request with two credential strings that pass
    validation, the crew [run] hands to the executor has the four tasks
    in the order verification, research, deal finding, report (told by
    the role of the agent each is bound to) and the sequential process;
    the stages that begin during
    the request are the first [n] of these four tasks in that order, so
    no stage begins twice; and when the request reaches the [try]
    statement and the pipeline returns its result, all four began. *)
Theorem pipeline_stages_in_order `{Externals}
    (openai_key serper_key query : pystr) (s : State) :
  has_nonspace openai_key && has_nonspace serper_key = true ->
  (forall s1 : State,
     run the_crew query s1 = kickoff (crew_of the_crew query) s1)
  /\ process (crew_of the_crew query) = sequential
  /\ tasks (crew_of the_crew query) = crew_tasks the_crew query
  /\ List.map (fun t => role (agent t)) (crew_tasks the_crew query)
     = [lit "Product Specification Verifier";
        lit "Product Research Specialist";
        lit "Deals Analysis Expert";
        lit "Shopping Report Specialist"]
  /\ exists (evs : list Event) (n : nat),
       adds (search_products openai_key serper_key query) s evs
       /\ (n <= 4)%nat
       /\ started_tasks evs = take n (crew_tasks the_crew query)
       /\ NoDup (started_tasks evs)
       /\ (forall result : pystr,
             environ_refuses openai_key = None ->
             environ_refuses serper_key = None ->
             fst (try_block query (with_keys openai_key serper_key s))
             = Return result ->
             started_tasks evs = crew_tasks the_crew query).
Proof.
  intros V. split; [intros s1; apply run_kickoff|].
  do 3 (split; [reflexivity|]).
  destruct (search_products_cases openai_key serper_key query s)
    as [[B _] | [(_ & e & R1 & E) | [(_ & A1 & e & R2 & E)
        | (_ & A1 & A2 & _)]]].
  - destruct (blank_not_nonspace _ _ B V).
  - exists [], 0%nat. unfold adds. rewrite E. cbn [snd].
    split; [now rewrite app_nil_r|]. split; [lia|].
    split; [reflexivity|]. split; [constructor|].
    intros result A1. congruence.
  - exists [], 0%nat. unfold adds. rewrite E. cbn [snd].
    split; [cbn; now rewrite app_nil_r|]. split; [lia|].
    split; [reflexivity|]. split; [constructor|].
    intros result _ A2. congruence.
  - destruct (search_products_run _ _ query s V A1 A2) as (evs & A & P).
    destruct (started_tasks_pipeline _ _ _ P) as (n & Hn & St & Hr).
    exists evs, n. split; [exact A|]. split; [exact Hn|].
    split; [exact St|]. split.
    + rewrite St. apply NoDup_take, distinct_NoDup, crew_tasks_distinct.
    + intros result _ _ R. rewrite St, (Hr result R).
      apply take_ge. rewrite crew_tasks_length. lia.
Qed.

Lemma pipeline_stages_in_order_witness :
  exists (evs : list Event) (n : nat),
    adds (@search_products echo_world (lit "sk-1") (lit "abc") (lit "monitor"))
      (initial_state echo_world 0%nat) evs
    /\ (n <= 4)%nat
    /\ started_tasks evs = take n (crew_tasks the_crew (lit "monitor"))
    /\ NoDup (started_tasks evs)
    /\ started_tasks evs = crew_tasks the_crew (lit "monitor").
Proof.
  destruct (proj2 (proj2 (proj2 (proj2
              (@pipeline_stages_in_order echo_world
                 (lit "sk-1") (lit "abc") (lit "monitor")
                 (initial_state echo_world 0%nat) eq_refl)))))
    as (evs & n & A & Hn & St & N & All).
  exists evs, n. repeat split; try assumption.
  apply (All (lit "[Shopping Report Specialist]") eq_refl eq_refl).
  vm_compute. reflexivity.
Defined.

(** C7. In a request that raises no exception (two credential strings
    that pass validation and that the operating system takes as values
    of the environment, a construction and a run that return),
    [search_products] returns the string the pipeline returned, which is
    the output of the last task, the report: the four stages returned,
    and the last event of the request is the report stage returning that
    string. A run ends in one of two ways: it returns the output of its
    last task, every stage having returned, or it raises an exception
    that it does not handle, before the last stage returned. *)
Theorem search_products_returns_report `{Externals}
    (openai_key serper_key query : pystr) (s : State) :
  has_nonspace openai_key && has_nonspace serper_key = true ->
  (forall result : pystr,
     environ_refuses openai_key = None ->
     environ_refuses serper_key = None ->
     fst (try_block query (with_keys openai_key serper_key s))
     = Return result ->
     fst (search_products openai_key serper_key query s) = Return result
     /\ exists (report : Task) (evs : list Event),
          last (crew_tasks the_crew query) = Some report
          /\ adds (search_products openai_key serper_key query) s evs
          /\ finished_tasks evs = crew_tasks the_crew query
          /\ last evs = Some (Finished report result))
  /\ (forall (self : ShoppingCrew) (s0 : State),
        exists evs : list Event,
          adds (run self query) s0 evs
          /\ ((exists (result : pystr) (report : Task),
                 fst (run self query s0) = Return result
                 /\ last (crew_tasks self query) = Some report
                 /\ finished_tasks evs = crew_tasks self query
                 /\ last evs = Some (Finished report result))
              \/ (exists e : PyExc,
                    fst (run self query s0) = Raise e
                    /\ (length (finished_tasks evs) < 4)%nat))).
Proof.
  intros V. split.
  - intros result A1 A2 R. split.
    + rewrite (search_products_outcome _ _ query s V A1 A2). cbn [fst].
      now rewrite R.
    + destruct (search_products_run _ _ query s V A1 A2) as (evs & A & P).
      rewrite R in P.
      inversion P as [ | | outs result' Hl Ho]; subst.
      destruct (last (crew_tasks the_crew query)) as [report|] eqn:L;
        [|apply last_None in L; discriminate L].
      exists report. eexists. split; [reflexivity|]. split; [exact A|].
      split.
      * unfold finished_tasks. rewrite omap_app.
        change (omap _ tool_events) with (@nil Task). cbn [app].
        fold (finished_tasks
                (stage_events (crew_tasks the_crew query) [] outs)).
        rewrite finished_stage_events, Hl.
        apply take_ge. rewrite crew_tasks_length. lia.
      * rewrite last_app.
        rewrite <- (crew_tasks_length the_crew query) in Hl.
        now rewrite (stage_events_last _ _ _ report result Hl L Ho).
  - intros self s0.
    destruct (run_spec self query s0) as (outs & T & _ & R).
    exists (stage_events (crew_tasks self query) [] outs).
    split; [exact T|].
    destruct (fst (run self query s0)) as [result|e]; [left | right].
    + destruct R as [Hl Ho].
      destruct (last (crew_tasks self query)) as [report|] eqn:L;
        [|apply last_None in L; discriminate L].
      exists result, report. split; [reflexivity|]. split; [reflexivity|].
      split.
      * rewrite finished_stage_events, Hl.
        apply take_ge. rewrite crew_tasks_length. lia.
      * rewrite <- (crew_tasks_length self query) in Hl.
        exact (stage_events_last _ _ _ report result Hl L Ho).
    + exists e. split; [reflexivity|].
      rewrite finished_stage_events, length_take. lia.
Qed.

Lemma search_products_returns_report_witness :
  fst (@search_products echo_world (lit "sk-1") (lit "abc") (lit "monitor")
         (initial_state echo_world 0%nat))
  = Return (lit "[Shopping Report Specialist]").
Proof.
  apply (proj1 (@search_products_returns_report echo_world
                  (lit "sk-1") (lit "abc") (lit "monitor")
                  (initial_state echo_world 0%nat) eq_refl)
           (lit "[Shopping Report Specialist]") eq_refl eq_refl).
  vm_compute. reflexivity.
Defined.

(** ** The agents and their tools *)

(** C10. The agents of a crew built by [__init__] have fixed, unequal
    tool sets: the verification agent has the search and the website
    search tools and not the scrape tool; the research and deal finding
    agents have the three tools; the report agent has none, so that no
    tool is permitted to the agent of the report stage. The four tasks
    are bound to these agents in this order, whatever the query. *)
Theorem create_agents_tool_sets `{Externals}
    (s : State) (crew : ShoppingCrew) :
  fst (ShoppingCrew_init s) = Return crew ->
  exists verification research deal_finder report : Agent,
    create_agents crew = (verification, research, deal_finder, report)
    /\ tools verification = [SerperDevTool; WebsiteSearchTool]
    /\ permitted verification ScrapeWebsiteTool = false
    /\ tools research = [SerperDevTool; WebsiteSearchTool; ScrapeWebsiteTool]
    /\ tools deal_finder
       = [SerperDevTool; WebsiteSearchTool; ScrapeWebsiteTool]
    /\ tools report = []
    /\ (forall t : Tool, permitted report t = false)
    /\ tools verification <> tools research
    /\ tools deal_finder <> tools report
    /\ tools verification <> tools report
    /\ (forall query : pystr,
          List.map agent (crew_tasks crew query)
          = [verification; research; deal_finder; report]).
Proof.
  intros R. pose proof (ShoppingCrew_init_spec s) as [_ I].
  rewrite R in I. destruct I as [-> _].
  do 4 eexists. split; [reflexivity|].
  cbn [tools permitted existsb Tool_eqb orb].
  repeat split; try reflexivity; discriminate.
Qed.

Lemma create_agents_tool_sets_witness :
  exists verification research deal_finder report : Agent,
    create_agents the_crew = (verification, research, deal_finder, report)
    /\ tools verification = [SerperDevTool; WebsiteSearchTool]
    /\ permitted verification ScrapeWebsiteTool = false
    /\ tools research = [SerperDevTool; WebsiteSearchTool; ScrapeWebsiteTool]
    /\ tools deal_finder
       = [SerperDevTool; WebsiteSearchTool; ScrapeWebsiteTool]
    /\ tools report = []
    /\ (forall t : Tool, permitted report t = false)
    /\ tools verification <> tools research
    /\ tools deal_finder <> tools report
    /\ tools verification <> tools report
    /\ (forall query : pystr,
          List.map agent (crew_tasks the_crew query)
          = [verification; research; deal_finder; report]).
Proof.
  apply (@create_agents_tool_sets echo_world (initial_state echo_world 0%nat)).
  reflexivity.
Defined.

(** * Further properties of the code *)

(** ** [strip] and the strings it leaves alone *)









(** ** The credential check *)

(** X1. [validate_api_keys] passes exactly when both keys hold a
    character that is not whitespace; otherwise its answer is the same
    message, whichever key is at fault, and that message is a true
    value, so that the test [if validation_error] of the caller is the
    test against [None]. The answer does not depend on the order of the
    two keys. *)
Theorem validate_api_keys_answers (openai_key serper_key : pystr) :
  (validate_api_keys openai_key serper_key = None
   <-> has_nonspace openai_key = true /\ has_nonspace serper_key = true)
  /\ (validate_api_keys openai_key serper_key <> None ->
      validate_api_keys openai_key serper_key
      = Some (lit "Please enter both API keys"))
  /\ (forall message : pystr,
        validate_api_keys openai_key serper_key = Some message ->
        truthy message = true)
  /\ validate_api_keys openai_key serper_key
     = validate_api_keys serper_key openai_key.
Proof.
  unfold validate_api_keys.
  rewrite !truthy_strip, !negb_involutive, !has_nonspace_blank.
  destruct (blank openai_key), (blank serper_key); cbn;
    repeat split; try congruence; try (intros [? ?]; congruence);
    intros message [= <-]; reflexivity.
Qed.

Lemma validate_api_keys_answers_witness :
  validate_api_keys (lit "abc") (lit "")
  = Some (lit "Please enter both API keys").
Proof.
  apply (proj1 (proj2 (validate_api_keys_answers (lit "abc") (lit "")))).
  discriminate.
Defined.

(** X2. Whitespace around a key does not change the answer of
    [validate_api_keys]: a key passes with its padding exactly when it
    passes without. *)
Theorem validate_api_keys_ignores_padding
    (before after before' after' openai_key serper_key : pystr) :
  blank before = true -> blank after = true ->
  blank before' = true -> blank after' = true ->
  validate_api_keys (before ++ openai_key ++ after)
                    (before' ++ serper_key ++ after')
  = validate_api_keys openai_key serper_key.
Proof.
  intros B A B' A'. unfold validate_api_keys.
  rewrite !truthy_strip, !blank_app, B, A, B', A'.
  cbn. now rewrite !andb_true_r.
Qed.

Lemma validate_api_keys_ignores_padding_witness :
  validate_api_keys (lit "  " ++ lit "sk-1" ++ lit " ")
                    ([0x3000] ++ lit "abc" ++ [0x0A])
  = None.
Proof.
  rewrite (validate_api_keys_ignores_padding (lit "  ") (lit " ")
             [0x3000] [0x0A] (lit "sk-1") (lit "abc")
             eq_refl eq_refl eq_refl eq_refl).
  reflexivity.
Defined.

(** ** What [search_products] leaves in the environment *)

(** The values the operating system takes are those without a NUL and
    without a surrogate other than an escaped byte; the exception of a
    refusal derives from [Exception]. *)
Lemma unencodable_None_iff (v : pystr) :
  forall i : N,
    unencodable i v = None
    <-> forallb (fun c => negb (is_surrogate c) || escaped_byte c) v = true.
Proof.
  induction v as [|c v IH]; intros i; cbn; [tauto|].
  destruct (is_surrogate c), (escaped_byte c); cbn;
    try apply IH; split; discriminate.
Qed.

Lemma environ_refuses_None_iff (v : pystr) :
  environ_refuses v = None
  <-> forallb (fun c => negb (is_surrogate c) || escaped_byte c) v = true
      /\ existsb (N.eqb 0) v = false.
Proof.
  unfold environ_refuses. rewrite <- (unencodable_None_iff v 0).
  destruct (unencodable 0 v) as [[start stop]|].
  - split; [discriminate | intros [? _]; discriminate].
  - destruct (existsb (N.eqb 0) v); split; try discriminate; auto.
    intros [_ ?]; discriminate.
Qed.

Lemma environ_refuses_derives (v : pystr) (e : PyExc) :
  environ_refuses v = Some e -> derives_Exception e = true.
Proof.
  unfold environ_refuses.
  destruct (unencodable 0 v) as [[start stop]|];
    [|destruct (existsb (N.eqb 0) v)]; intros [= <-] || intros [=];
    reflexivity.
Qed.



(** X5. The assignments of a request replace whatever the request
    before it left: when a request with keys that pass validation and
    that the operating system takes follows any other request, the
    environment is the one it alone would leave. *)
Theorem search_products_last_keys_win `{Externals}
    (openai_key serper_key query : pystr)
    (openai_key' serper_key' query' : pystr) (s : State) :
  has_nonspace openai_key' && has_nonspace serper_key' = true ->
  environ_refuses openai_key' = None ->
  environ_refuses serper_key' = None ->
  environ (snd (search_products openai_key' serper_key' query'
                  (snd (search_products openai_key serper_key query s))))
  = environ (snd (search_products openai_key' serper_key' query' s)).
Proof.
  intros V' A1' A2'.
  rewrite !(search_products_environ _ _ _ _ V' A1' A2').
  apply map_eq. intros k.
  destruct (decide (k = "SERPER_API_KEY"%string)) as [->|K1].
  - now rewrite !lookup_insert_eq.
  - rewrite !(lookup_insert_ne _ "SERPER_API_KEY") by congruence.
    destruct (decide (k = "OPENAI_API_KEY"%string)) as [->|K2].
    + now rewrite !lookup_insert_eq.
    + rewrite !(lookup_insert_ne _ "OPENAI_API_KEY") by congruence.
      now apply search_products_frame.
Qed.

Lemma search_products_last_keys_win_witness :
  environ (snd (@search_products echo_world (lit "sk-2") (lit "def")
                  (lit "laptop")
                  (snd (@search_products echo_world (lit "sk-1") (lit "abc")
                          (lit "monitor") (initial_state echo_world 0%nat)))))
    !! "OPENAI_API_KEY" = Some (lit "sk-2").
Proof.
  rewrite (@search_products_last_keys_win echo_world
             (lit "sk-1") (lit "abc") (lit "monitor")
             (lit "sk-2") (lit "def") (lit "laptop")
             (initial_state echo_world 0%nat) eq_refl eq_refl eq_refl).
  vm_compute. reflexivity.
Defined.





(** ** What [search_products] raises *)

(** X4. When [search_products] raises, the keys had passed validation,
    and the exception has one of two origins: the operating system
    refused a key, and the exception is that refusal, whose class
    derives from [Exception]; or both keys were taken, the exception was
    raised during the construction or a stage of the pipeline, and its
    class is outside [Exception]. *)
Theorem search_products_raise_origin `{Externals}
    (openai_key serper_key query : pystr) (s : State) (e : PyExc) :
  fst (search_products openai_key serper_key query s) = Raise e ->
  has_nonspace openai_key && has_nonspace serper_key = true
  /\ ((derives_Exception e = true
       /\ (environ_refuses openai_key = Some e
           \/ (environ_refuses openai_key = None
               /\ environ_refuses serper_key = Some e)))
      \/ (derives_Exception e = false
          /\ environ_refuses openai_key = None
          /\ environ_refuses serper_key = None
          /\ raised_in_pipeline query
               (with_keys openai_key serper_key s) e)).
Proof.
  intros R.
  destruct (search_products_cases openai_key serper_key query s)
    as [[_ E] | [(V & e1 & R1 & E) | [(V & A1 & e2 & R2 & E)
        | (V & A1 & A2 & E)]]]; rewrite E in R; cbn [fst] in R.
  - discriminate R.
  - injection R as ->. split; [exact V|]. left.
    split; [exact (environ_refuses_derives _ _ R1) | now left].
  - injection R as ->. split; [exact V|]. left.
    split; [exact (environ_refuses_derives _ _ R2) | now right].
  - split; [exact V|]. right. unfold reported in R.
    destruct (fst (try_block query (with_keys openai_key serper_key s)))
      as [result|e'] eqn:T; [discriminate R|].
    destruct (derives_Exception e') eqn:D; [discriminate R|].
    injection R as ->.
    split; [exact D|]. split; [exact A1|]. split; [exact A2|].
    now apply try_block_raises_iff.
Qed.

Lemma search_products_raise_origin_witness :
  has_nonspace NUL_key && has_nonspace (lit "abc") = true
  /\ ((derives_Exception embedded_null_byte = true
       /\ (environ_refuses NUL_key = Some embedded_null_byte
           \/ (environ_refuses NUL_key = None
               /\ environ_refuses (lit "abc") = Some embedded_null_byte)))
      \/ (derives_Exception embedded_null_byte = false
          /\ environ_refuses NUL_key = None
          /\ environ_refuses (lit "abc") = None
          /\ @raised_in_pipeline echo_world (lit "monitor")
               (with_keys NUL_key (lit "abc")
                  (initial_state echo_world 0%nat))
               embedded_null_byte)).
Proof.
  apply (@search_products_raise_origin echo_world
           NUL_key (lit "abc") (lit "monitor")
           (initial_state echo_world 0%nat)).
  reflexivity.
Defined.

(** ** The query in the tasks *)

(** X7. The query enters the descriptions of the first two tasks as it
    is given, between two fixed texts: nothing is trimmed, cut or
    escaped, so that two requests whose first (or second) task has the
    same description asked the same query, whatever the agents. *)
Theorem create_tasks_query_verbatim
    (query query' : pystr) (va ra da pa va' ra' da' pa' : Agent) :
  (task_description 0 query va ra da pa
   = task_description 0 query' va' ra' da' pa' -> query = query')
  /\ (task_description 1 query va ra da pa
      = task_description 1 query' va' ra' da' pa' -> query = query').
Proof.
  unfold task_description.
  cbv beta iota zeta delta [create_tasks].
  cbn [lookup list_lookup fmap option_fmap option_map description].
  split; intros E; injection E as E; apply app_inv_tail in E; exact E.
Qed.

Lemma create_tasks_query_verbatim_witness : lit "monitor" = lit "monitor".
Proof.
  apply (proj1 (create_tasks_query_verbatim (lit "monitor") (lit "monitor")
                  (mkAgent [] [] [] [] true) (mkAgent [] [] [] [] true)
                  (mkAgent [] [] [] [] true) (mkAgent [] [] [] [] true)
                  (mkAgent [] [] [] [] false) (mkAgent [] [] [] [] false)
                  (mkAgent [] [] [] [] false) (mkAgent [] [] [] [] false))).
  reflexivity.
Defined.

(** ** The crew and its contexts *)

(** X9. The contexts of [create_tasks] only look back, and are closed:
    a task in the context of another stands before it in the list, is
    not that task, and its own context is part of the context it
    belongs to. *)
Theorem create_tasks_contexts_closed
    (query : pystr) (va ra da pa : Agent) (n : nat) (t c : Task) :
  create_tasks query va ra da pa !! n = Some t ->
  c ∈ context t ->
  (exists m : nat,
     (m < n)%nat /\ create_tasks query va ra da pa !! m = Some c)
  /\ c <> t
  /\ (forall c' : Task, c' ∈ context c -> c' ∈ context t).
Proof.
  intros Hn Hc.
  pose proof (create_tasks_chained query va ra da pa) as C.
  pose proof (distinct_NoDup _ (create_tasks_distinct query va ra da pa)) as N.
  rewrite (C n t Hn) in *.
  apply list_elem_of_lookup in Hc as [m Hm].
  apply lookup_take_Some in Hm as [Hm Hlt].
  split; [exists m; split; assumption|].
  split.
  - intros ->. pose proof (NoDup_lookup _ _ _ _ N Hm Hn). lia.
  - intros c' Hc'. rewrite (C m c Hm) in Hc'.
    apply list_elem_of_lookup in Hc' as [k Hk].
    apply lookup_take_Some in Hk as [Hk Hkm].
    apply list_elem_of_lookup. exists k.
    apply lookup_take_Some. split; [exact Hk | lia].
Qed.

Lemma create_tasks_contexts_closed_witness :
  monitor_task 1 <> monitor_task 3
  /\ (forall c' : Task,
        c' ∈ context (monitor_task 1) -> c' ∈ context (monitor_task 3)).
Proof.
  apply (create_tasks_contexts_closed (lit "monitor")
           (fst (fst (fst (create_agents the_crew))))
           (snd (fst (fst (create_agents the_crew))))
           (snd (fst (create_agents the_crew)))
           (snd (create_agents the_crew))
           3 (monitor_task 3) (monitor_task 1)).
  - reflexivity.
  - apply list_elem_of_lookup. exists 1%nat. reflexivity.
Defined.

(** ** Construction before execution *)




(** ** The returned string *)

(** X11. The string [search_products] returns does not tell a failure
    from a result. For every exception whose class derives from
    [Exception] there are two worlds, one in which the first stage
    raises it and one in which every stage answers with the text
    "An error occurred: " followed by the text of the exception: the
    [try] block raises in the first and returns in the second, and
    [search_products] returns the same string in both. *)
Theorem search_products_result_hides_failure
    (openai_key serper_key query : pystr) (e : PyExc) :
  has_nonspace openai_key && has_nonspace serper_key = true ->
  derives_Exception e = true ->
  fst (@try_block (failing_world 0 e) query
         (with_keys openai_key serper_key
            (initial_state (failing_world 0 e) 0%nat)))
  = Raise e
  /\ fst (@try_block (answering_world (lit "An error occurred: " ++ exc_str e))
            query
            (with_keys openai_key serper_key
               (initial_state
                  (answering_world (lit "An error occurred: " ++ exc_str e))
                  0%nat)))
     = Return (lit "An error occurred: " ++ exc_str e)
  /\ fst (@search_products (failing_world 0 e) openai_key serper_key query
            (initial_state (failing_world 0 e) 0%nat))
     = fst (@search_products
              (answering_world (lit "An error occurred: " ++ exc_str e))
              openai_key serper_key query
              (initial_state
                 (answering_world (lit "An error occurred: " ++ exc_str e))
                 0%nat)).
Proof.
  intros V D.
  assert (F : fst (@try_block (failing_world 0 e) query
                     (with_keys openai_key serper_key
                        (initial_state (failing_world 0 e) 0%nat)))
              = Raise e) by reflexivity.
  assert (A : fst (@try_block
                     (answering_world (lit "An error occurred: " ++ exc_str e))
                     query
                     (with_keys openai_key serper_key
                        (initial_state
                           (answering_world
                              (lit "An error occurred: " ++ exc_str e))
                           0%nat)))
              = Return (lit "An error occurred: " ++ exc_str e))
    by reflexivity.
  split; [exact F|]. split; [exact A|].
  destruct (environ_refuses openai_key) as [e1|] eqn:R1.
  - rewrite (@search_products_refused_first (failing_world 0 e)
               _ _ query _ e1 V R1).
    now rewrite (@search_products_refused_first (answering_world _)
                   _ _ query _ e1 V R1).
  - destruct (environ_refuses serper_key) as [e2|] eqn:R2.
    + rewrite (@search_products_refused_second (failing_world 0 e)
                 _ _ query _ e2 V R1 R2).
      now rewrite (@search_products_refused_second (answering_world _)
                     _ _ query _ e2 V R1 R2).
    + rewrite (@search_products_outcome (failing_world 0 e)
                 _ _ query _ V R1 R2).
      rewrite (@search_products_outcome (answering_world _)
                 _ _ query _ V R1 R2).
      cbn [fst]. rewrite F, A. cbn [reported]. now rewrite D.
Qed.

Lemma search_products_result_hides_failure_witness :
  fst (@search_products (failing_world 0 ConnectionError)
         (lit "sk-1") (lit "abc") (lit "monitor")
         (initial_state (failing_world 0 ConnectionError) 0%nat))
  = fst (@search_products
           (answering_world (lit "An error occurred: Connection refused"))
           (lit "sk-1") (lit "abc") (lit "monitor")
           (initial_state
              (answering_world (lit "An error occurred: Connection refused"))
              0%nat)).
Proof.
  exact (proj2 (proj2 (search_products_result_hides_failure
                         (lit "sk-1") (lit "abc") (lit "monitor")
                         ConnectionError eq_refl eq_refl))).
Defined.
